(** * Digital clock backend: session lifecycle engine and weather cache

    A shallow embedding of the Mongoose models (models/ClockSession.js,
    models/User.js, models/WeatherCache.js) and of the Express handlers of
    routes/pomodoro.js and routes/weather.js, followed by the properties
    of the timer engine, the statistics update and the weather cache.

    Conventions of the embedding.
    - A [Date] is its epoch value in milliseconds, a [Z].  [Math.floor (x / 1000)]
      on such a difference is [x / 1000] in [Z] (rounds towards minus infinity).
    - A MongoDB collection is the list of its documents in insertion order;
      [findOne] returns the first document that matches.
    - A JSON field that may be absent is an [option].
    - A number of the store is a JavaScript double; a whole number is
      written as a [Z], and sums are exact on safe integers (absolute
      value below [2 ^ 53]).
    - Each handler receives the clock reading(s) it makes as arguments.
    - Mongoose runs [pre('save')] middleware on [document.save()] only;
      [findOneAndUpdate] and [findByIdAndUpdate] write the update document
      as it is, without save middleware and without validators. *)

From Stdlib Require Import ZArith List String Bool Lia QArith Qround.
From Stdlib Require Import Permutation Sorted.
Import ListNotations.

Local Open Scope string_scope.
Local Open Scope list_scope.
Local Open Scope Z_scope.

(* ================================================================== *)
(** ** JavaScript helpers *)

(** [x || d] on an optional string: the empty string is falsy too. *)
Definition str_or (x : option string) (d : string) : string :=
  match x with
  | Some s => if String.eqb s "" then d else s
  | None => d
  end.

(** Truthiness of an optional number: [undefined] and [0] are falsy. *)
Definition truthy (x : option Z) : bool :=
  match x with
  | Some n => negb (n =? 0)
  | None => false
  end.

(** [x || null] on an optional number. *)
Definition num_or_null (x : option Z) : option Z :=
  if truthy x then x else None.

(** [Math.round] on a rational: nearest integer, halves towards plus infinity. *)
Definition Math_round (x : Q) : Z := Qfloor (x + (1 # 2))%Q.

Definition is_none {A : Type} (x : option A) : bool :=
  match x with
  | None => true
  | Some _ => false
  end.

(* ================================================================== *)
(** ** models/ClockSession.js *)

Inductive session_type := pomodoro | break | focus.

Inductive sub_type := work | short_break | long_break | custom.

Definition session_type_eqb (a b : session_type) : bool :=
  match a, b with
  | pomodoro, pomodoro | break, break | focus, focus => true
  | _, _ => false
  end.

(** The [data] sub-document, restricted to the schema paths the routes
    write. *)
Record session_data := mkData {
  task : option string;
  notes : option string;
  ambientSound : option string
}.

Record ClockSession := mkSession {
  _id : nat;
  userId : nat;
  type : session_type;
  subType : sub_type;
  startTime : Z;
  endTime : option Z;
  plannedDuration : Z;
  actualDuration : option Z;
  completed : bool;
  interrupted : bool;
  pausedTime : Z;
  data : session_data;
  productivity : option Z
}.

(** Virtual [duration]: [null] until the session has ended. *)
Definition duration (s : ClockSession) : option Z :=
  match endTime s with
  | Some e => Some ((e - startTime s) / 1000 - pausedTime s)
  | None => None
  end.

Definition set_actualDuration (v : option Z) (s : ClockSession) : ClockSession :=
  mkSession (_id s) (userId s) (type s) (subType s) (startTime s) (endTime s)
            (plannedDuration s) v (completed s) (interrupted s)
            (pausedTime s) (data s) (productivity s).

(** [clockSessionSchema.pre('save')]: fills [actualDuration] once the
    session has an [endTime] and no (truthy) [actualDuration] yet. *)
Definition pre_save (s : ClockSession) : ClockSession :=
  match endTime s with
  | Some e =>
      if negb (truthy (actualDuration s))
      then set_actualDuration (Some ((e - startTime s) / 1000 - pausedTime s)) s
      else s
  | None => s
  end.

(* ================================================================== *)
(** ** models/User.js, the [stats] sub-document *)

Record user_stats := mkStats {
  totalFocusTime : Z;
  completedPomodoros : Z;
  totalSessions : Z;
  longestStreak : Z;
  currentStreak : Z;
  lastSessionDate : option Z
}.

(** Schema defaults. *)
Definition default_stats : user_stats := mkStats 0 0 0 0 0 None.

Record User := mkUser {
  user_id : nat;
  stats : user_stats
}.

(* ================================================================== *)
(** ** The store *)

Record Db := mkDb {
  sessions : list ClockSession;
  users : list User;
  next_id : nat
}.

Definition findOne {A : Type} (p : A -> bool) (l : list A) : option A :=
  List.find p l.

(** [findOneAndUpdate filter update {new: true}]: the first match is
    updated in place and the updated document is returned. *)
Fixpoint findOneAndUpdate {A : Type} (p : A -> bool) (f : A -> A) (l : list A)
  : option A * list A :=
  match l with
  | [] => (None, [])
  | x :: r =>
      if p x then (Some (f x), f x :: r)
      else let '(o, r') := findOneAndUpdate p f r in (o, x :: r')
  end.

(** [User.findByIdAndUpdate id update]: a user that does not exist is
    not created. *)
Definition findByIdAndUpdate (id : nat) (f : user_stats -> user_stats)
    (l : list User) : list User :=
  snd (findOneAndUpdate (fun u => Nat.eqb (user_id u) id)
         (fun u => mkUser (user_id u) (f (stats u))) l).

(* ================================================================== *)
(** ** routes/pomodoro.js *)

(** The query [{ userId, endTime: null, type: { $in: [...] } }]. *)
Definition active_filter (u : nat) (s : ClockSession) : bool :=
  Nat.eqb (userId s) u
  && is_none (endTime s)
  && existsb (session_type_eqb (type s)) [pomodoro; break; focus].

Inductive reply :=
| Started (id : nat) (ty : sub_type) (start planned : Z) (tsk : option string)
| Completed (id : nat) (ty : sub_type) (dur : option Z)
| PauseRecorded (totalPausedTime : Z)
| Stopped (id : nat) (ty : sub_type) (dur : option Z)
| CurrentSession (id : nat) (ty : sub_type) (start planned elapsed remaining : Z)
                 (tsk amb : option string) (paused : Z)
| CurrentNone
| Failure (status : Z) (error : string).

Definition InvalidDuration : reply := Failure 400 "Invalid duration".
Definition Conflict : reply := Failure 409 "Session already active".
Definition NoActiveSession : reply := Failure 404 "No active session".

(** The body of a start request.  [type] is taken among the values of the
    schema's [subType] enumeration (absent: 'work'); any other string is
    refused by the schema validation when the session is saved. *)
Record start_body := mkStart {
  sb_type : option sub_type;
  sb_duration : option Z;
  sb_task : option string;
  sb_ambientSound : option string
}.

(** [!duration || duration < 60 || duration > 3600] *)
Definition invalid_duration (d : option Z) : bool :=
  negb (truthy d)
  || match d with
     | Some n => (n <? 60) || (3600 <? n)
     | None => false
     end.

Definition new_session (id u : nat) (now : Z) (b : start_body) (d : Z)
  : ClockSession :=
  let ty := match sb_type b with Some t => t | None => work end in
  mkSession id u
    (match ty with work => pomodoro | _ => break end)
    ty now None d None false false 0
    (mkData (Some (str_or (sb_task b) ""))
            None
            (Some (str_or (sb_ambientSound b) "none")))
    None.

(** POST /pomodoro/start *)
Definition start (u : nat) (now : Z) (b : start_body) (db : Db) : reply * Db :=
  if invalid_duration (sb_duration b) then (InvalidDuration, db)
  else
    match sb_duration b with
    | None => (InvalidDuration, db)
    | Some d =>
        match findOne (active_filter u) (sessions db) with
        | Some _ => (Conflict, db)
        | None =>
            let session := pre_save (new_session (next_id db) u now b d) in
            (Started (_id session) (subType session) (startTime session)
                     (plannedDuration session) (task (data session)),
             mkDb (sessions db ++ [session]) (users db) (S (next_id db)))
        end
    end.

Definition complete_update (now : Z) (prod : option Z) (nts : option string)
    (s : ClockSession) : ClockSession :=
  mkSession (_id s) (userId s) (type s) (subType s) (startTime s)
    (Some now) (plannedDuration s) (actualDuration s) true (interrupted s)
    (pausedTime s)
    (mkData (task (data s)) (Some (str_or nts "")) (ambientSound (data s)))
    (num_or_null prod).

(** The [$inc] / [$set] of the statistics update; [a] is the session's
    [actualDuration] and [e] its [endTime]. *)
Definition stats_update (a : Z) (e : option Z) (st : user_stats) : user_stats :=
  mkStats (totalFocusTime st + a / 60)
          (completedPomodoros st + 1)
          (totalSessions st + 1)
          (longestStreak st)
          (currentStreak st)
          e.

(** POST /pomodoro/complete *)
Definition complete (u : nat) (now : Z) (prod : option Z) (nts : option string)
    (db : Db) : reply * Db :=
  match findOneAndUpdate (active_filter u) (complete_update now prod nts)
          (sessions db) with
  | (None, _) => (NoActiveSession, db)
  | (Some session, l) =>
      let us :=
        if session_type_eqb (type session) pomodoro
           && truthy (actualDuration session)
        then match actualDuration session with
             | Some a => findByIdAndUpdate u (stats_update a (endTime session))
                           (users db)
             | None => users db
             end
        else users db in
      (Completed (_id session) (subType session) (actualDuration session),
       mkDb l us (next_id db))
  end.

(** [$inc: { pausedTime: pausedTime }].  The numbers of the store are
    JavaScript doubles; the sum is written in [Z], which is what the
    double addition gives as long as both terms and the sum are safe
    integers (see [safe_integer]).  The statements about the amount that
    [pause] adds carry that bound. *)
Definition pause_update (delta : Z) (s : ClockSession) : ClockSession :=
  mkSession (_id s) (userId s) (type s) (subType s) (startTime s)
    (endTime s) (plannedDuration s) (actualDuration s) (completed s)
    (interrupted s) (pausedTime s + delta) (data s) (productivity s).

(** POST /pomodoro/pause; the body's [pausedTime] defaults to 0. *)
Definition pause (u : nat) (body_pausedTime : option Z) (db : Db) : reply * Db :=
  let delta := match body_pausedTime with Some n => n | None => 0 end in
  match findOneAndUpdate (active_filter u) (pause_update delta) (sessions db) with
  | (None, _) => (NoActiveSession, db)
  | (Some session, l) =>
      (PauseRecorded (pausedTime session), mkDb l (users db) (next_id db))
  end.

(** The update document of stop.  It also names
    ['data.interruptionReason'], which is not a path of the schema:
    Mongoose (strict mode) drops it from the update, so the reason is
    not stored. *)
Definition stop_update (now : Z) (reason : string) (s : ClockSession)
  : ClockSession :=
  mkSession (_id s) (userId s) (type s) (subType s) (startTime s)
    (Some now) (plannedDuration s) (actualDuration s) false true
    (pausedTime s) (data s) (productivity s).

(** POST /pomodoro/stop; the body's [reason] defaults to 'user_cancelled'. *)
Definition stop (u : nat) (now : Z) (body_reason : option string) (db : Db)
  : reply * Db :=
  let reason := match body_reason with Some r => r | None => "user_cancelled" end in
  match findOneAndUpdate (active_filter u) (stop_update now reason)
          (sessions db) with
  | (None, _) => (NoActiveSession, db)
  | (Some session, l) =>
      (Stopped (_id session) (subType session) (actualDuration session),
       mkDb l (users db) (next_id db))
  end.

(** GET /pomodoro/current: a query, the store is only read. *)
Definition current (u : nat) (now : Z) (db : Db) : reply :=
  match findOne (active_filter u) (sessions db) with
  | None => CurrentNone
  | Some session =>
      let elapsed := (now - startTime session) / 1000 - pausedTime session in
      let remaining := Z.max 0 (plannedDuration session - elapsed) in
      CurrentSession (_id session) (subType session) (startTime session)
        (plannedDuration session) elapsed remaining
        (task (data session)) (ambientSound (data session))
        (pausedTime session)
  end.

(** *** Sequences of engine operations *)

Inductive request :=
| ReqStart (b : start_body)
| ReqPause (body_pausedTime : option Z)
| ReqComplete (prod : option Z) (nts : option string)
| ReqStop (body_reason : option string).

(** One request: the user, the clock reading and the operation. *)
Record event := mkEvent {
  ev_user : nat;
  ev_now : Z;
  ev_req : request
}.

Definition handle (e : event) (db : Db) : reply * Db :=
  match ev_req e with
  | ReqStart b => start (ev_user e) (ev_now e) b db
  | ReqPause p => pause (ev_user e) p db
  | ReqComplete p n => complete (ev_user e) (ev_now e) p n db
  | ReqStop r => stop (ev_user e) (ev_now e) r db
  end.

Fixpoint run (db : Db) (tr : list event) : Db :=
  match tr with
  | [] => db
  | e :: r => run (snd (handle e db)) r
  end.

(** The store before any session exists. *)
Definition empty_store (us : list User) : Db := mkDb [] us 0.

(* ================================================================== *)
(** ** models/WeatherCache.js and routes/weather.js *)

Module Weather.

Record condition := mkCondition {
  main : string;
  description : string;
  icon : string
}.

Record current_weather := mkCurrent {
  temperature : Z;
  feelsLike : Z;
  humidity : Q;
  pressure : Q;
  windSpeed : Q;
  windDirection : Q;
  visibility : option Q;
  uvIndex : option Q;
  cond : condition;
  timestamp : Z
}.

(** [location], with [coordinates.lat] and [coordinates.lon] flattened. *)
Record location_t := mkLocation {
  city : string;
  country : string;
  lat : Q;
  lon : Q
}.

Record WeatherCache := mkCache {
  location : location_t;
  current : current_weather;
  source : string;
  cachedAt : Z;
  expiresAt : Z
}.

(** Schema default of [expiresAt]: [Date.now() + 10 * 60 * 1000]. *)
Definition ttl : Z := 10 * 60 * 1000.

(** [location.city] is [required]: Mongoose rejects the empty string, and
    [save()] then throws a validation error. *)
Definition validate (doc : WeatherCache) : bool :=
  negb (String.eqb (city (location doc)) "").

(** The body of the provider's answer, the fields the handler reads. *)
Record weather_data := mkData {
  name : string;
  sys_country : string;
  main_temp : Q;
  main_feels_like : Q;
  main_humidity : Q;
  main_pressure : Q;
  wind_speed : option Q;
  wind_deg : option Q;
  wd_visibility : option Q;
  weather : list condition
}.

(** What the axios error handler looks at. *)
Record axios_error := mkError {
  code : option string;
  response_status : option Z
}.

Inductive axios_result :=
| Resolved (d : weather_data)
| Rejected (e : axios_error).

(** The store, and the log of the requests sent to the provider. *)
Record state := mkState {
  cache : list WeatherCache;
  upstream : list (Q * Q)
}.

Inductive reply :=
| Ok (weather : current_weather) (cached : bool) (loc : location_t)
| Failure (status : Z) (error message : string).

Definition ProviderUnavailable : reply :=
  Failure 503 "Service unavailable" "Weather service is temporarily unavailable".
Definition ProviderMisconfigured : reply :=
  Failure 503 "Service configuration error" "Weather service is not properly configured".
Definition ProviderError : reply :=
  Failure 500 "Weather fetch failed" "Unable to fetch weather data".
Definition NotConfigured : reply :=
  Failure 503 "Service unavailable" "Weather service is not configured".
Definition InvalidCoordinates : reply :=
  Failure 400 "Invalid coordinates" "Valid latitude and longitude are required".

(** [x || 0] on an optional number. *)
Definition q_or_zero (x : option Q) : Q :=
  match x with
  | Some q => if Qeq_bool q 0 then 0%Q else q
  | None => 0%Q
  end.

(** [weatherData.visibility ? weatherData.visibility / 1000 : null] *)
Definition visibility_km (x : option Q) : option Q :=
  match x with
  | Some q => if Qeq_bool q 0 then None else Some (q / 1000)%Q
  | None => None
  end.

Definition process (d : weather_data) (c : condition) (now : Z) : current_weather :=
  mkCurrent (Math_round (main_temp d)) (Math_round (main_feels_like d))
            (main_humidity d) (main_pressure d)
            (q_or_zero (wind_speed d)) (q_or_zero (wind_deg d))
            (visibility_km (wd_visibility d)) None c now.

(** The query [{ 'location.coordinates.lat': parseFloat(lat),
    'location.coordinates.lon': parseFloat(lon), expiresAt: { $gt: now } }]. *)
Definition cacheKey (la lo : Q) (now : Z) (e : WeatherCache) : bool :=
  Qeq_bool (lat (location e)) la
  && Qeq_bool (lon (location e)) lo
  && (now <? expiresAt e).

Definition code_is (e : axios_error) (c : string) : bool :=
  match code e with
  | Some x => String.eqb x c
  | None => false
  end.

(** The [catch] block. *)
Definition on_error (e : axios_error) : reply :=
  if code_is e "ENOTFOUND" || code_is e "ECONNREFUSED" then ProviderUnavailable
  else match response_status e with
       | Some s => if s =? 401 then ProviderMisconfigured else ProviderError
       | None => ProviderError
       end.

Definition configured (key : option string) : bool :=
  match key with
  | Some k => negb (String.eqb k "")
  | None => false
  end.

(** The clock readings of a request that stores an entry, in the order
    they are made: [new Date()] for the [timestamp] of the weather, then
    the schema defaults [Date.now] of [cachedAt] and
    [Date.now() + 10 * 60 * 1000] of [expiresAt], each with a reading of
    its own. *)
Record save_clock := mkSaveClock {
  at_timestamp : Z;
  at_cachedAt : Z;
  at_expiresAt : Z
}.

(** GET /weather/current/:lat/:lon.

    [key] is [process.env.OPENWEATHER_API_KEY]; [fetcher] is what the
    request to the provider comes back with; a route parameter that is
    not a number is [None], otherwise the value [parseFloat] gives it;
    [now] is the clock at the cache lookup and [now'] holds the three
    readings made after the provider has answered.  The [units] query
    parameter only travels to
    the provider and is left out.  An exception thrown while the answer is
    processed or saved ([weather[0]] missing, validation) reaches the
    [catch] block without [code] or [response]. *)
Definition get_current (key : option string) (fetcher : Q -> Q -> axios_result)
    (now : Z) (now' : save_clock) (plat plon : option Q) (st : state)
  : reply * state :=
  match plat, plon with
  | Some la, Some lo =>
      match findOne (cacheKey la lo now) (cache st) with
      | Some cachedWeather =>
          (Ok (current cachedWeather) true (location cachedWeather), st)
      | None =>
          if negb (configured key) then (NotConfigured, st)
          else
            let st1 := mkState (cache st) (upstream st ++ [(la, lo)]) in
            match fetcher la lo with
            | Rejected e => (on_error e, st1)
            | Resolved weatherData =>
                match weather weatherData with
                | [] => (on_error (mkError None None), st1)
                | c :: _ =>
                    let processedWeather :=
                      process weatherData c (at_timestamp now') in
                    let weatherCache :=
                      mkCache (mkLocation (name weatherData)
                                          (sys_country weatherData) la lo)
                              processedWeather "openweather"
                              (at_cachedAt now') (at_expiresAt now' + ttl) in
                    if validate weatherCache
                    then (Ok processedWeather false (location weatherCache),
                          mkState (cache st ++ [weatherCache])
                                  (upstream st ++ [(la, lo)]))
                    else (on_error (mkError None None), st1)
                end
            end
      end
  | _, _ => (InvalidCoordinates, st)
  end.

End Weather.

(* ================================================================== *)
(** ** Predicates used by the properties *)

Definition active_sessions (u : nat) (db : Db) : list ClockSession :=
  filter (active_filter u) (sessions db).

(** At most one session per user has no [endTime]. *)
Definition one_active (db : Db) : Prop :=
  forall u, (List.length (active_sessions u db) <= 1)%nat.

(** [completed] and [interrupted] exclude each other, and both are
    false while the session has no [endTime]. *)
Definition flags_ok (s : ClockSession) : Prop :=
  (completed s && interrupted s = false)
  /\ (endTime s = None -> completed s = false /\ interrupted s = false).

(** The paused time, in milliseconds, does not exceed the wall-clock time
    elapsed since [startTime] at the clock reading [now]. *)
Definition paused_within_elapsed (now : Z) (s : ClockSession) : Prop :=
  pausedTime s * 1000 <= now - startTime s.

(** Every pause request reports a non-negative amount. *)
Definition nonneg_pause (e : event) : Prop :=
  match ev_req e with
  | ReqPause (Some d) => 0 <= d
  | _ => True
  end.

(** The same session, later: identity and start are kept and the paused
    time has not decreased. *)
Definition paused_grows (s s' : ClockSession) : Prop :=
  _id s' = _id s /\ startTime s' = startTime s /\ pausedTime s <= pausedTime s'.

(** Every session of [db] is still there in [db'], at the same position,
    with a paused time at least as large; [db'] may hold newer sessions. *)
Definition accumulates (db db' : Db) : Prop :=
  exists l1 l2, sessions db' = l1 ++ l2 /\ Forall2 paused_grows (sessions db) l1.

(** A safe integer of JavaScript: one that a double holds exactly, with
    its neighbours ([Number.isSafeInteger]). *)
Definition safe_integer (n : Z) : Prop := - 2 ^ 53 < n < 2 ^ 53.

(** The paused time stays a safe integer all along a list of pause
    reports that starts from [start]: every reported amount and every
    running total is one. *)
Fixpoint safe_pauses (start : Z) (ps : list (Z * option Z)) : Prop :=
  match ps with
  | [] => safe_integer start
  | p :: r =>
      let d := match snd p with Some d => d | None => 0 end in
      safe_integer start /\ safe_integer d /\ safe_pauses (start + d) r
  end.

(** The counters the statistics update increments, the duration it reads
    and the new values are safe integers. *)
Definition safe_stats_update (a : Z) (st : user_stats) : Prop :=
  safe_integer a
  /\ safe_integer (totalFocusTime st)
  /\ safe_integer (totalFocusTime st + a / 60)
  /\ safe_integer (completedPomodoros st)
  /\ safe_integer (completedPomodoros st + 1)
  /\ safe_integer (totalSessions st)
  /\ safe_integer (totalSessions st + 1).

(** The two kind fields agree, as [start] sets them: [type] is
    'pomodoro' exactly for the kind 'work'. *)
Definition kind_consistent (s : ClockSession) : Prop :=
  type s = pomodoro <-> subType s = work.

(** The update document a request applies to the active session, if the
    request is one that updates. *)
Definition update_of (e : event) : option (ClockSession -> ClockSession) :=
  match ev_req e with
  | ReqStart _ => None
  | ReqPause p => Some (pause_update (match p with Some n => n | None => 0 end))
  | ReqComplete p n => Some (complete_update (ev_now e) p n)
  | ReqStop r =>
      Some (stop_update (ev_now e)
              (match r with Some x => x | None => "user_cancelled" end))
  end.

(** No stored session carries an [actualDuration]. *)
Definition no_actualDuration (db : Db) : Prop :=
  Forall (fun s => actualDuration s = None) (sessions db).

(** Calendar day (UTC) of an instant. *)
Definition calendar_day (t : Z) : Z := t / 86400000.

(** Stated from the specification: the streak after a completion at
    [now], given the previous completion [prev] and the streak [cur]. *)
Definition spec_currentStreak (prev : option Z) (now cur : Z) : Z :=
  match prev with
  | Some p =>
      if calendar_day now =? calendar_day p + 1 then cur + 1
      else if calendar_day now =? calendar_day p then cur
      else 1
  | None => 1
  end.

(** Stated from the specification: the location key, latitude and
    longitude rounded to two decimal places (as hundredths of a degree). *)
Definition spec_locationKey (la lo : Q) : Z * Z :=
  (Math_round (la * 100), Math_round (lo * 100)).

(* ================================================================== *)
(** ** routes/pomodoro.js, GET /pomodoro/history *)

Module History.

Definition sub_type_eqb (a b : sub_type) : bool :=
  match a, b with
  | work, work | short_break, short_break
  | long_break, long_break | custom, custom => true
  | _, _ => false
  end.

(** The query string: [page] and [limit] after [parseInt], the dates
    after [new Date]; an absent parameter is [None]. *)
Record query := mkQuery {
  page : option Z;
  limit : option Z;
  qtype : option sub_type;
  dateFrom : option Z;
  dateTo : option Z
}.

(** The filter document built from the query string: [subType] is
    constrained only for 'work', 'short_break' and 'long_break'. *)
Definition matches (u : nat) (q : query) (s : ClockSession) : bool :=
  Nat.eqb (userId s) u
  && match qtype q with
     | Some t =>
         if existsb (sub_type_eqb t) [work; short_break; long_break]
         then sub_type_eqb (subType s) t
         else true
     | None => true
     end
  && match dateFrom q with Some f => f <=? startTime s | None => true end
  && match dateTo q with Some t => startTime s <=? t | None => true end.

(** [sort({ startTime: -1 })]; sessions with equal [startTime] keep the
    order of the collection. *)
Fixpoint insert_desc (s : ClockSession) (l : list ClockSession)
  : list ClockSession :=
  match l with
  | [] => [s]
  | x :: r =>
      if startTime x <=? startTime s then s :: x :: r
      else x :: insert_desc s r
  end.

Definition sort_desc (l : list ClockSession) : list ClockSession :=
  fold_right insert_desc [] l.

(** The documents a page holds, before the projection. *)
Definition page_docs (u : nat) (q : query) (pg lim : Z) (db : Db)
  : list ClockSession :=
  firstn (Z.to_nat lim)
         (skipn (Z.to_nat ((pg - 1) * lim))
                (sort_desc (filter (matches u q) (sessions db)))).

(** [select('type subType startTime endTime plannedDuration
    actualDuration completed interrupted data.task productivity
    createdAt')], with [_id]; [createdAt], which the modelled document
    does not carry, is left out. *)
Record item := mkItem {
  item_id : nat;
  item_type : session_type;
  item_subType : sub_type;
  item_startTime : Z;
  item_endTime : option Z;
  item_plannedDuration : Z;
  item_actualDuration : option Z;
  item_completed : bool;
  item_interrupted : bool;
  item_task : option string;
  item_productivity : option Z
}.

Definition select (s : ClockSession) : item :=
  mkItem (_id s) (type s) (subType s) (startTime s) (endTime s)
         (plannedDuration s) (actualDuration s) (completed s) (interrupted s)
         (task (data s)) (productivity s).

Record pagination := mkPagination {
  currentPage : Z;
  totalPages : Z;
  totalSessions : Z;
  hasNext : bool;
  hasPrevious : bool
}.

(** GET /pomodoro/history, for [page >= 1] and [limit >= 1] (defaults 1
    and 20).  [Math.ceil (total / limit)] is [(total + limit - 1) / limit]
    there.  Other values of [page] and [limit] reach the database driver
    as they are and are outside this model: the result is [None]. *)
Definition history (u : nat) (q : query) (db : Db)
  : option (list item * pagination) :=
  let pg := match page q with Some n => n | None => 1 end in
  let lim := match limit q with Some n => n | None => 20 end in
  if (1 <=? pg) && (1 <=? lim) then
    let skip := (pg - 1) * lim in
    let found := page_docs u q pg lim db in
    let total := Z.of_nat (List.length (filter (matches u q) (sessions db))) in
    Some (map select found,
          mkPagination pg ((total + lim - 1) / lim) total
                       (skip + Z.of_nat (List.length found) <? total)
                       (1 <? pg))
  else None.

End History.

(** Newest first: no session is followed by a later start. *)
Definition newest_first : list ClockSession -> Prop :=
  StronglySorted (fun a b => startTime b <= startTime a).

(* ================================================================== *)
(** ** routes/user.js: statistics and account deletion *)

Module Account.

(** [$match: { userId, completed: true }], with [startTime: { $gte }]
    for the aggregations of today and of this week. *)
Definition completed_since (u : nat) (since : option Z) (s : ClockSession)
  : bool :=
  Nat.eqb (userId s) u
  && completed s
  && match since with Some t => t <=? startTime s | None => true end.

(** [$sum: '$actualDuration']: a document without the field adds 0. *)
Definition sum_actualDuration (l : list ClockSession) : Z :=
  fold_right
    (fun s acc => match actualDuration s with Some a => a | None => 0 end + acc)
    0 l.

(** [$group] with [_id: null]: the number of documents and the sum of
    their durations ([$avg] is left out); no document at all when nothing
    matches, and the handler then puts zeros. *)
Definition aggregate (u : nat) (since : option Z) (l : list ClockSession)
  : Z * Z :=
  match filter (completed_since u since) l with
  | [] => (0, 0)
  | m => (Z.of_nat (List.length m), sum_actualDuration m)
  end.

Inductive reply :=
| Stats (st : user_stats) (total today week : Z * Z)
| Deleted
| Failure (status : Z) (error : string).

(** GET /user/stats.  [startOfDay] and [startOfWeek] are the two instants
    the handler derives from the clock in the server's local calendar. *)
Definition get_stats (u : nat) (startOfDay startOfWeek : Z) (db : Db) : reply :=
  match findOne (fun x => Nat.eqb (user_id x) u) (users db) with
  | None => Failure 404 "User not found"
  | Some user =>
      Stats (stats user)
            (aggregate u None (sessions db))
            (aggregate u (Some startOfDay) (sessions db))
            (aggregate u (Some startOfWeek) (sessions db))
  end.

(** [findByIdAndDelete]: the first document with the id is removed and
    returned. *)
Fixpoint findOneAndDelete {A : Type} (p : A -> bool) (l : list A)
  : option A * list A :=
  match l with
  | [] => (None, [])
  | x :: r =>
      if p x then (Some x, r)
      else let '(o, r') := findOneAndDelete p r in (o, x :: r')
  end.

(** DELETE /user/account: the sessions of the user are deleted first,
    then the user. *)
Definition delete_account (u : nat) (db : Db) : reply * Db :=
  let kept := filter (fun s => negb (Nat.eqb (userId s) u)) (sessions db) in
  match findOneAndDelete (fun x => Nat.eqb (user_id x) u) (users db) with
  | (None, _) => (Failure 404 "User not found", mkDb kept (users db) (next_id db))
  | (Some _, us) => (Deleted, mkDb kept us (next_id db))
  end.

End Account.

(* ================================================================== *)
(** ** middleware/auth.js *)

Module Auth.

(** [s.split(' ')] *)
Fixpoint split_space (s : string) : list string :=
  match s with
  | EmptyString => [EmptyString]
  | String c r =>
      if Ascii.eqb c Ascii.Space then EmptyString :: split_space r
      else match split_space r with
           | h :: t => String c h :: t
           | [] => [String c EmptyString]
           end
  end.

(** [authHeader && authHeader.split(' ')[1]], with the falsy results
    (no header, no second part, empty second part) as [None]. *)
Definition token_of (authHeader : option string) : option string :=
  match authHeader with
  | None => None
  | Some h =>
      match nth_error (split_space h) 1 with
      | Some t => if String.eqb t "" then None else Some t
      | None => None
      end
  end.

(** What [jwt.verify] does with a token: the decoded payload, or the
    error it throws, by name. *)
Inductive jwt_result :=
| Decoded (userId : nat) (email : string) (isGuest : option bool)
| TokenExpiredError
| JsonWebTokenError
| OtherError.

Record req_user := mkReqUser {
  userId : nat;
  email : string;
  isGuest : bool
}.

Inductive outcome :=
| Next (user : option req_user)
| Reject (status : Z) (error message : string).

Definition findById (id : nat) (l : list User) : option User :=
  findOne (fun x => Nat.eqb (user_id x) id) l.

Definition authenticateToken (verify : string -> jwt_result)
    (authHeader : option string) (us : list User) : outcome :=
  match token_of authHeader with
  | None => Reject 401 "Access denied" "Authentication token is required"
  | Some token =>
      match verify token with
      | Decoded uid em g =>
          match findById uid us with
          | None => Reject 401 "Invalid token" "User account no longer exists"
          | Some _ =>
              Next (Some (mkReqUser uid em
                            (match g with Some b => b | None => false end)))
          end
      | TokenExpiredError =>
          Reject 401 "Token expired"
                 "Your session has expired. Please log in again."
      | JsonWebTokenError =>
          Reject 401 "Invalid token" "Authentication token is invalid"
      | OtherError =>
          Reject 500 "Authentication failed" "Unable to authenticate request"
      end
  end.

Definition optionalAuth (verify : string -> jwt_result)
    (authHeader : option string) (us : list User) : outcome :=
  match token_of authHeader with
  | None => Next None
  | Some token =>
      match verify token with
      | Decoded uid em g =>
          match findById uid us with
          | Some _ =>
              Next (Some (mkReqUser uid em
                            (match g with Some b => b | None => false end)))
          | None => Next None
          end
      | _ => Next None
      end
  end.

End Auth.

(** A word: a string without a space. *)
Fixpoint no_space (s : string) : bool :=
  match s with
  | EmptyString => true
  | String c r => negb (Ascii.eqb c Ascii.Space) && no_space r
  end.

(* ================================================================== *)
(** ** Sequences of weather requests, and the TTL index *)

(** The three readings fall in the same millisecond. *)
Definition same_ms (t : Z) : Weather.save_clock := Weather.mkSaveClock t t t.

(** One request to GET /weather/current: what the provider would answer,
    the clock readings and the route parameters. *)
Record weather_request := mkWeatherRequest {
  wr_fetcher : Q -> Q -> Weather.axios_result;
  wr_now : Z;
  wr_now' : Weather.save_clock;
  wr_lat : option Q;
  wr_lon : option Q
}.

Definition weather_step (key : option string) (r : weather_request)
    (st : Weather.state) : Weather.reply * Weather.state :=
  Weather.get_current key (wr_fetcher r) (wr_now r) (wr_now' r)
                      (wr_lat r) (wr_lon r) st.

Fixpoint weather_run (key : option string) (st : Weather.state)
    (rs : list weather_request) : Weather.state :=
  match rs with
  | [] => st
  | r :: rest => weather_run key (snd (weather_step key r st)) rest
  end.

(** The readings of one request are made in order. *)
Definition readings_in_order (now : Z) (c : Weather.save_clock) : Prop :=
  now <= Weather.at_timestamp c
  /\ Weather.at_timestamp c <= Weather.at_cachedAt c
  /\ Weather.at_cachedAt c <= Weather.at_expiresAt c.

(** The requests come one after the other from the clock reading [t] on:
    each looks the cache up no earlier than [t], makes its later readings
    in order, and the next request follows. *)
Fixpoint chronological (t : Z) (rs : list weather_request) : Prop :=
  match rs with
  | [] => True
  | r :: rest =>
      t <= wr_now r
      /\ readings_in_order (wr_now r) (wr_now' r)
      /\ chronological (Weather.at_expiresAt (wr_now' r)) rest
  end.

(** The clock reading after the last request. *)
Fixpoint final_clock (t : Z) (rs : list weather_request) : Z :=
  match rs with
  | [] => t
  | r :: rest => final_clock (Weather.at_expiresAt (wr_now' r)) rest
  end.

(** The shape of an entry the handler writes: it names a city, comes
    from 'openweather', and expires no earlier than ten minutes after it
    was cached. *)
Definition entry_wf (e : Weather.WeatherCache) : Prop :=
  Weather.cachedAt e + Weather.ttl <= Weather.expiresAt e
  /\ Weather.city (Weather.location e) <> ""
  /\ Weather.source e = "openweather".

(** The index [{ expiresAt: 1 }, { expireAfterSeconds: 0 }]: at the clock
    reading [t] the database may delete any entry whose [expiresAt] is
    not after [t]; [victim] says which of those it deletes. *)
Definition ttl_delete (victim : Weather.WeatherCache -> bool) (t : Z)
    (c : list Weather.WeatherCache) : list Weather.WeatherCache :=
  filter (fun e => negb (victim e && (Weather.expiresAt e <=? t))) c.

(** *** Sample data for the examples *)

Definition clear_sky : Weather.condition :=
  Weather.mkCondition "Clear" "clear sky" "01d".

Definition sample_payload : Weather.weather_data :=
  Weather.mkData "New York" "US" (215 # 10)%Q (209 # 10)%Q 40%Q 1013%Q
                 (Some (36 # 10)%Q) (Some 250%Q) (Some 10000%Q) [clear_sky].

Definition provider_up (_ _ : Q) : Weather.axios_result :=
  Weather.Resolved sample_payload.

Definition provider_down (_ _ : Q) : Weather.axios_result :=
  Weather.Rejected (Weather.mkError (Some "ECONNREFUSED") None).

(** Closes [safe_integer n] for a numeral [n]. *)
Ltac safe_int := unfold safe_integer; cbn; lia.

(** Closes [Forall nonneg_pause tr] on a concrete sequence. *)
Ltac nonneg_pauses :=
  cbv [app]; repeat (apply Forall_cons; [cbv; try congruence; exact I|]);
  apply Forall_nil.

(* ================================================================== *)
(** ** The store operations *)

Section StoreFacts.

Context {A : Type}.
Variables (p : A -> bool) (f : A -> A).

Lemma findOneAndUpdate_none (l : list A) :
  findOne p l = None -> findOneAndUpdate p f l = (None, l).
Proof.
  unfold findOne. induction l as [|x r IH]; simpl; [reflexivity|].
  destruct (p x); [discriminate|].
  intros H. rewrite (IH H). reflexivity.
Qed.

Lemma findOneAndUpdate_some (l : list A) (x : A) :
  findOne p l = Some x ->
  exists l1 l2,
    l = l1 ++ x :: l2
    /\ Forall (fun y => p y = false) l1
    /\ p x = true
    /\ findOneAndUpdate p f l = (Some (f x), l1 ++ f x :: l2).
Proof.
  unfold findOne. induction l as [|y r IH]; simpl; [discriminate|].
  destruct (p y) eqn:Hy.
  - intros [= ->]. exists [], r. simpl. auto.
  - intros H. destruct (IH H) as (l1 & l2 & -> & Hl1 & Hx & Heq).
    exists (y :: l1), l2. rewrite Heq. simpl. auto.
Qed.

Lemma findOne_none_filter (l : list A) :
  findOne p l = None -> filter p l = [].
Proof.
  unfold findOne. induction l as [|y r IH]; simpl; [reflexivity|].
  destruct (p y); [discriminate|assumption].
Qed.

Lemma findOne_filter_hd (l : list A) :
  findOne p l = hd_error (filter p l).
Proof.
  unfold findOne. induction l as [|y r IH]; simpl; [reflexivity|].
  destruct (p y); simpl; auto.
Qed.

(** An update is seen pointwise: the list keeps its length and every
    position holds either the old document or its update. *)
Lemma findOneAndUpdate_Forall2 (R : A -> A -> Prop) (l : list A) :
  (forall x, R x x) -> (forall x, p x = true -> R x (f x)) ->
  Forall2 R l (snd (findOneAndUpdate p f l)).
Proof.
  intros Hrefl Hf. induction l as [|y r IH]; simpl; [constructor|].
  destruct (p y) eqn:Hy; simpl.
  - constructor; [auto|]. clear IH. induction r; constructor; auto.
  - destruct (findOneAndUpdate p f r) as [o r']. simpl in *.
    constructor; auto.
Qed.

End StoreFacts.

Lemma Forall2_Forall_r {A : Type} (R : A -> A -> Prop) (P : A -> Prop)
    (l l' : list A) :
  Forall2 R l l' -> Forall P l -> (forall x y, R x y -> P x -> P y) ->
  Forall P l'.
Proof.
  intros H. induction H; intros HP Himp; [constructor|].
  inversion HP; subst. constructor; eauto.
Qed.

Lemma Forall2_filter_length {A : Type} (R : A -> A -> Prop) (q : A -> bool)
    (l l' : list A) :
  Forall2 R l l' -> (forall x y, R x y -> q y = true -> q x = true) ->
  (List.length (filter q l') <= List.length (filter q l))%nat.
Proof.
  intros H Hq. induction H as [|x y l l' Hxy _ IH]; simpl; [lia|].
  destruct (q y) eqn:Hy.
  - rewrite (Hq _ _ Hxy Hy). simpl. lia.
  - destruct (q x); simpl; lia.
Qed.

Lemma findOneAndUpdate_fst_none {A : Type} (p : A -> bool) (f : A -> A)
    (l : list A) :
  fst (findOneAndUpdate p f l) = None -> snd (findOneAndUpdate p f l) = l.
Proof.
  induction l as [|y r IH]; simpl; [reflexivity|].
  destruct (p y); simpl; [discriminate|].
  destruct (findOneAndUpdate p f r) as [o r']. simpl in *.
  intros H. rewrite (IH H). reflexivity.
Qed.

(* ================================================================== *)
(** ** The shape of one engine step *)

Lemma pre_save_new_session (id u : nat) (now : Z) (b : start_body) (d : Z) :
  pre_save (new_session id u now b d) = new_session id u now b d.
Proof. reflexivity. Qed.

(** What a request does to the session collection: a successful start
    appends one fresh session; any other request rewrites at most the
    first active session of the user with its update document. *)
Lemma handle_sessions (e : event) (db : Db) :
  (exists b d,
      ev_req e = ReqStart b
      /\ findOne (active_filter (ev_user e)) (sessions db) = None
      /\ sessions (snd (handle e db))
         = sessions db ++ [new_session (next_id db) (ev_user e) (ev_now e) b d])
  \/ (exists f,
      update_of e = Some f
      /\ sessions (snd (handle e db))
         = snd (findOneAndUpdate (active_filter (ev_user e)) f (sessions db)))
  \/ sessions (snd (handle e db)) = sessions db.
Proof.
  destruct e as [u now r]. unfold handle, update_of. simpl.
  destruct r as [b|p|pr n|rs].
  - unfold start. destruct (invalid_duration (sb_duration b)); [auto|].
    destruct (sb_duration b) as [d|]; [|auto].
    destruct (findOne (active_filter u) (sessions db)) eqn:Hf; [auto|].
    left. exists b, d. auto.
  - right; left. eexists; split; [reflexivity|]. unfold pause.
    destruct (findOneAndUpdate _ _ _) as [[s|] l] eqn:Hu; simpl; [reflexivity|].
    symmetry. rewrite <- (findOneAndUpdate_fst_none (active_filter u)
      (pause_update match p with Some n => n | None => 0 end) (sessions db)) at 1;
      rewrite Hu; reflexivity.
  - right; left. eexists; split; [reflexivity|]. unfold complete.
    destruct (findOneAndUpdate _ _ _) as [[s|] l] eqn:Hu; simpl; [reflexivity|].
    symmetry. rewrite <- (findOneAndUpdate_fst_none (active_filter u)
      (complete_update now pr n) (sessions db)) at 1;
      rewrite Hu; reflexivity.
  - right; left. eexists; split; [reflexivity|]. unfold stop.
    destruct (findOneAndUpdate _ _ _) as [[s|] l] eqn:Hu; simpl; [reflexivity|].
    symmetry. rewrite <- (findOneAndUpdate_fst_none (active_filter u)
      (stop_update now match rs with Some x => x | None => "user_cancelled" end)
      (sessions db)) at 1;
      rewrite Hu; reflexivity.
Qed.

(** An update document never turns a session into an active one. *)
Lemma update_of_active (e : event) (f : ClockSession -> ClockSession)
    (v : nat) (s : ClockSession) :
  update_of e = Some f -> active_filter v (f s) = true -> active_filter v s = true.
Proof.
  unfold update_of. destruct (ev_req e); intros [= <-]; try discriminate;
    unfold active_filter; simpl; try tauto;
    rewrite andb_false_r; discriminate.
Qed.

Lemma active_filter_endTime (u : nat) (s : ClockSession) :
  active_filter u s = true -> userId s = u /\ endTime s = None.
Proof.
  unfold active_filter. intros H.
  apply andb_prop in H as [H _]. apply andb_prop in H as [H1 H2].
  apply Nat.eqb_eq in H1. destruct (endTime s); [discriminate|]. auto.
Qed.

Lemma update_of_flags (e : event) (f : ClockSession -> ClockSession)
    (u : nat) (s : ClockSession) :
  update_of e = Some f -> active_filter u s = true ->
  flags_ok s -> flags_ok (f s).
Proof.
  intros Hf Ha [H1 H2]. apply active_filter_endTime in Ha as [_ Hend].
  destruct (H2 Hend) as [Hc Hi].
  unfold update_of in Hf. destruct (ev_req e); inversion Hf; subst f;
    unfold flags_ok; simpl; rewrite ?Hc, ?Hi; repeat split; auto;
    intros; discriminate.
Qed.

Lemma update_of_actualDuration (e : event) (f : ClockSession -> ClockSession)
    (s : ClockSession) :
  update_of e = Some f -> actualDuration (f s) = actualDuration s.
Proof.
  unfold update_of. destruct (ev_req e); intros [= <-]; reflexivity.
Qed.

Lemma update_of_paused_grows (e : event) (f : ClockSession -> ClockSession)
    (s : ClockSession) :
  update_of e = Some f -> nonneg_pause e -> paused_grows s (f s).
Proof.
  unfold update_of, nonneg_pause, paused_grows.
  destruct (ev_req e) as [b|[d|]|pr n|rs]; intros [= <-] Hd; simpl;
    repeat split; lia.
Qed.

Lemma paused_grows_refl (s : ClockSession) : paused_grows s s.
Proof. unfold paused_grows. repeat split; lia. Qed.

Lemma paused_grows_trans (a b c : ClockSession) :
  paused_grows a b -> paused_grows b c -> paused_grows a c.
Proof.
  unfold paused_grows. intros (H1 & H2 & H3) (H4 & H5 & H6).
  repeat split; try congruence; lia.
Qed.

(* ================================================================== *)
(** ** Invariants of the engine, step by step *)

Lemma filter_app_single {A : Type} (q : A -> bool) (l : list A) (x : A) :
  filter q (l ++ [x]) = filter q l ++ (if q x then [x] else []).
Proof. rewrite filter_app. reflexivity. Qed.

Lemma step_one_active (e : event) (db : Db) :
  one_active db -> one_active (snd (handle e db)).
Proof.
  intros Hinv v. unfold active_sessions.
  destruct (handle_sessions e db) as [(b & d & _ & Hnone & ->)|[(f & Hf & ->)| ->]].
  - rewrite filter_app_single, length_app.
    destruct (active_filter v (new_session _ _ _ _ _)) eqn:Hv; simpl.
    + apply active_filter_endTime in Hv as [Hu _]. simpl in Hu. subst v.
      rewrite (findOne_none_filter _ _ Hnone). simpl. lia.
    + specialize (Hinv v). unfold active_sessions in Hinv. lia.
  - specialize (Hinv v). unfold active_sessions in Hinv.
    eapply Nat.le_trans; [|exact Hinv].
    apply Forall2_filter_length
      with (R := fun x y => active_filter v y = true -> active_filter v x = true).
    + apply findOneAndUpdate_Forall2; [auto|].
      intros x _. apply (update_of_active e f v x Hf).
    + auto.
  - apply Hinv.
Qed.

Lemma step_flags (e : event) (db : Db) :
  Forall flags_ok (sessions db) -> Forall flags_ok (sessions (snd (handle e db))).
Proof.
  intros Hinv.
  destruct (handle_sessions e db) as [(b & d & _ & _ & ->)|[(f & Hf & ->)| ->]].
  - apply Forall_app. split; [assumption|].
    constructor; [|constructor]. unfold flags_ok. simpl. auto.
  - apply Forall2_Forall_r
      with (R := fun x y => flags_ok x -> flags_ok y) (l := sessions db); auto.
    apply findOneAndUpdate_Forall2; [auto|].
    intros x Hx. apply (update_of_flags e f (ev_user e) x Hf Hx).
  - assumption.
Qed.

Lemma step_no_actualDuration (e : event) (db : Db) :
  no_actualDuration db -> no_actualDuration (snd (handle e db)).
Proof.
  unfold no_actualDuration. intros Hinv.
  destruct (handle_sessions e db) as [(b & d & _ & _ & ->)|[(f & Hf & ->)| ->]].
  - apply Forall_app. split; [assumption|]. constructor; [reflexivity|constructor].
  - apply Forall2_Forall_r
      with (R := fun x y => actualDuration y = actualDuration x)
           (l := sessions db); auto.
    + apply findOneAndUpdate_Forall2; [auto|].
      intros x _. apply (update_of_actualDuration e f x Hf).
    + intros x y Hxy Hx. congruence.
  - assumption.
Qed.

Lemma step_accumulates (e : event) (db : Db) :
  nonneg_pause e -> accumulates db (snd (handle e db)).
Proof.
  intros Hd. unfold accumulates.
  destruct (handle_sessions e db) as [(b & d & _ & _ & ->)|[(f & Hf & ->)| ->]].
  - exists (sessions db), [new_session (next_id db) (ev_user e) (ev_now e) b d].
    split; [reflexivity|].
    induction (sessions db); constructor; auto using paused_grows_refl.
  - exists (snd (findOneAndUpdate (active_filter (ev_user e)) f (sessions db))), [].
    split; [rewrite app_nil_r; reflexivity|].
    apply findOneAndUpdate_Forall2; [apply paused_grows_refl|].
    intros x _. apply (update_of_paused_grows e f x Hf Hd).
  - exists (sessions db), []. split; [rewrite app_nil_r; reflexivity|].
    induction (sessions db); constructor; auto using paused_grows_refl.
Qed.

Lemma accumulates_refl (db : Db) : accumulates db db.
Proof.
  exists (sessions db), []. split; [rewrite app_nil_r; reflexivity|].
  induction (sessions db); constructor; auto using paused_grows_refl.
Qed.

Lemma Forall2_paused_grows_trans (l1 l2 l3 : list ClockSession) :
  Forall2 paused_grows l1 l2 -> Forall2 paused_grows l2 l3 ->
  Forall2 paused_grows l1 l3.
Proof.
  intros H. revert l3. induction H; intros l3 H3; inversion H3; subst;
    constructor; eauto using paused_grows_trans.
Qed.

Lemma accumulates_trans (a b c : Db) :
  accumulates a b -> accumulates b c -> accumulates a c.
Proof.
  intros (l1 & l2 & Hb & H1) (m1 & m2 & Hc & H2).
  rewrite Hb in H2. apply Forall2_app_inv_l in H2 as (m1a & m1b & Ha & _ & ->).
  exists m1a, (m1b ++ m2). split.
  - rewrite Hc, app_assoc. reflexivity.
  - eapply Forall2_paused_grows_trans; eassumption.
Qed.

Lemma step_paused_nonneg (e : event) (db : Db) :
  nonneg_pause e ->
  Forall (fun s => 0 <= pausedTime s) (sessions db) ->
  Forall (fun s => 0 <= pausedTime s) (sessions (snd (handle e db))).
Proof.
  intros Hd Hinv.
  destruct (step_accumulates e db Hd) as (l1 & l2 & Heq & H12).
  destruct (handle_sessions e db) as [(b & d & _ & _ & Hs)|[(f & Hf & Hs)| Hs]];
    rewrite Hs.
  - apply Forall_app. split; [assumption|]. constructor; [simpl; lia|constructor].
  - apply Forall2_Forall_r with (R := paused_grows) (l := sessions db); auto.
    + apply findOneAndUpdate_Forall2; [apply paused_grows_refl|].
      intros x _. apply (update_of_paused_grows e f x Hf Hd).
    + unfold paused_grows. intros x y (_ & _ & Hle) Hx. lia.
  - assumption.
Qed.

(** *** Along a sequence of operations *)

Lemma run_app (db : Db) (t1 t2 : list event) :
  run db (t1 ++ t2) = run (run db t1) t2.
Proof. revert db. induction t1; simpl; auto. Qed.

Lemma run_one_active (tr : list event) (db : Db) :
  one_active db -> one_active (run db tr).
Proof.
  revert db. induction tr as [|e r IH]; simpl; auto using step_one_active.
Qed.

Lemma run_flags (tr : list event) (db : Db) :
  Forall flags_ok (sessions db) -> Forall flags_ok (sessions (run db tr)).
Proof.
  revert db. induction tr as [|e r IH]; simpl; auto using step_flags.
Qed.

Lemma run_no_actualDuration (tr : list event) (db : Db) :
  no_actualDuration db -> no_actualDuration (run db tr).
Proof.
  revert db. induction tr as [|e r IH]; simpl; auto using step_no_actualDuration.
Qed.

Lemma run_paused_nonneg (tr : list event) (db : Db) :
  Forall nonneg_pause tr ->
  Forall (fun s => 0 <= pausedTime s) (sessions db) ->
  Forall (fun s => 0 <= pausedTime s) (sessions (run db tr)).
Proof.
  revert db. induction tr as [|e r IH]; simpl; auto.
  intros db Htr Hdb. inversion Htr; subst.
  apply IH; auto using step_paused_nonneg.
Qed.

Lemma run_accumulates (tr : list event) (db : Db) :
  Forall nonneg_pause tr -> accumulates db (run db tr).
Proof.
  revert db. induction tr as [|e r IH]; simpl; intros db Htr.
  - apply accumulates_refl.
  - inversion Htr; subst.
    apply accumulates_trans with (b := snd (handle e db));
      [apply step_accumulates; assumption|auto].
Qed.

Lemma empty_store_one_active (us : list User) : one_active (empty_store us).
Proof. intros u. simpl. lia. Qed.

(* ================================================================== *)
(** ** Timer engine: the session invariant *)

(** C1, as the code has it.  After every sequence of start, pause,
    complete and stop requests from a store without sessions, each user
    has at most one session without [endTime]; in every session
    [completed] and [interrupted] are never both true and both are false
    while the session is active.  When every pause request reports a
    non-negative amount, [pausedTime] is non-negative and never decreases
    from one reachable store to a later one.  No bound by the elapsed
    wall-clock time is part of the property. *)
Theorem engine_invariant (us : list User) (tr1 tr2 : list event) :
  let db1 := run (empty_store us) tr1 in
  let db2 := run db1 tr2 in
  one_active db2
  /\ Forall flags_ok (sessions db2)
  /\ (Forall nonneg_pause (tr1 ++ tr2) ->
      Forall (fun s => 0 <= pausedTime s) (sessions db2)
      /\ accumulates db1 db2).
Proof.
  intros db1 db2. subst db1 db2. rewrite <- run_app. repeat split.
  - apply run_one_active, empty_store_one_active.
  - apply run_flags. constructor.
  - apply run_paused_nonneg; [assumption|constructor].
  - rewrite run_app. apply run_accumulates.
    apply Forall_app in H. tauto.
Qed.

(** A start followed by pauses of 10 and 15 seconds: the paused time is
    non-negative and grows from the store after the first pause to the
    store after the second. *)
Lemma engine_invariant_witness :
  let tr1 := [mkEvent 7 0 (ReqStart (mkStart (Some work) (Some 1500) None None));
              mkEvent 7 60000 (ReqPause (Some 10))] in
  let tr2 := [mkEvent 7 120000 (ReqPause (Some 15))] in
  Forall nonneg_pause (tr1 ++ tr2)
  /\ Forall (fun s => 0 <= pausedTime s)
            (sessions (run (run (empty_store []) tr1) tr2))
  /\ accumulates (run (empty_store []) tr1) (run (run (empty_store []) tr1) tr2).
Proof.
  intros tr1 tr2.
  assert (H : Forall nonneg_pause (tr1 ++ tr2)).
  { subst tr1 tr2. nonneg_pauses. }
  split; [exact H|].
  exact (proj2 (proj2 (engine_invariant [] tr1 tr2)) H).
Defined.

(** C1 as stated fails: a pause request may report more than the time
    that has passed.  One second after the start a pause of 100 seconds
    is accepted, and the active session then holds a paused time larger
    than the time elapsed since its start. *)
Lemma pause_exceeds_elapsed :
  let tr := [mkEvent 7 0 (ReqStart (mkStart (Some work) (Some 1500) None None));
             mkEvent 7 1000 (ReqPause (Some 100))] in
  Forall nonneg_pause tr
  /\ exists s, In s (sessions (run (empty_store []) tr))
               /\ endTime s = None
               /\ pausedTime s = 100
               /\ 1000 - startTime s = 1000
               /\ ~ paused_within_elapsed 1000 s.
Proof.
  intros tr. split; [subst tr; nonneg_pauses|].
  eexists. split; [left; reflexivity|].
  unfold paused_within_elapsed. simpl. repeat split; lia.
Qed.

(* ================================================================== *)
(** ** Timer engine: complete *)




(* ================================================================== *)
(** ** Timer engine: current *)

(** C3, as the code has it.  [current] only reads the store.  Without an
    active session it answers with a null session (the reply
    [CurrentNone], not an error status).  Otherwise it projects the first
    active session of the user with
    [elapsed = floor ((now - startTime) / 1000) - pausedTime], which is
    not clamped and is non-negative exactly when the paused time does not
    exceed the whole seconds elapsed, and
    [remaining = max 0 (plannedDuration - elapsed)].  1500 seconds after
    the start, with 100 seconds paused and 1500 planned, elapsed is 1400
    and remaining is 100. *)
Theorem current_spec (u : nat) (now : Z) (db : Db) :
  (findOne (active_filter u) (sessions db) = None ->
   current u now db = CurrentNone)
  /\ (forall s, findOne (active_filter u) (sessions db) = Some s ->
      let elapsed := (now - startTime s) / 1000 - pausedTime s in
      let remaining := Z.max 0 (plannedDuration s - elapsed) in
      current u now db
      = CurrentSession (_id s) (subType s) (startTime s) (plannedDuration s)
          elapsed remaining (task (data s)) (ambientSound (data s))
          (pausedTime s)
      /\ (0 <= elapsed <-> pausedTime s <= (now - startTime s) / 1000)
      /\ 0 <= remaining
      /\ (now = startTime s + 1500 * 1000 -> pausedTime s = 100 ->
          plannedDuration s = 1500 -> elapsed = 1400 /\ remaining = 100)).
Proof.
  unfold current. split.
  - intros ->. reflexivity.
  - intros s ->. cbv zeta. split; [reflexivity|]. split; [lia|]. split; [lia|].
    intros Hnow Hpaused Hplanned. rewrite Hnow, Hpaused, Hplanned.
    replace (startTime s + 1500 * 1000 - startTime s) with 1500000 by lia.
    split; reflexivity.
Qed.

(** The projection 1500 seconds after the start with 100 seconds paused:
    elapsed 1400, remaining 100; another user has no session. *)
Lemma current_spec_witness :
  let db := run (empty_store [])
              [mkEvent 7 0 (ReqStart (mkStart (Some work) (Some 1500) None None));
               mkEvent 7 600000 (ReqPause (Some 100))] in
  let s := mkSession 0 7 pomodoro work 0 None 1500 None false false 100
             (mkData (Some "") None (Some "none")) None in
  current 8 1500000 db = CurrentNone
  /\ current 7 1500000 db
     = CurrentSession 0 work 0 1500 1400 100 (Some "") (Some "none") 100.
Proof.
  intros db s. split.
  - exact (proj1 (current_spec 8 1500000 db) eq_refl).
  - exact (proj1 (proj2 (current_spec 7 1500000 db) s eq_refl)).
Defined.

(** C3 as stated fails: [elapsed] is not clamped.  Ten seconds after the
    start, with 100 seconds reported as paused, the projection has
    elapsed = -90 and remaining = 1590, more than the planned 1500. *)
Lemma current_elapsed_negative :
  let db := run (empty_store [])
              [mkEvent 7 0 (ReqStart (mkStart (Some work) (Some 1500) None None));
               mkEvent 7 5000 (ReqPause (Some 100))] in
  current 7 10000 db
  = CurrentSession 0 work 0 1500 (-90) 1590 (Some "") (Some "none") 100
  /\ ~ (0 <= -90).
Proof. split; [reflexivity|lia]. Qed.

(* ================================================================== *)
(** ** Timer engine: start *)

Lemma invalid_duration_range (d : Z) :
  invalid_duration (Some d) = true <-> d < 60 \/ 3600 < d.
Proof.
  unfold invalid_duration, truthy.
  rewrite !orb_true_iff, negb_true_iff, negb_false_iff.
  rewrite Z.eqb_eq, !Z.ltb_lt. lia.
Qed.

(** C4, as the code has it.  The duration is checked first: [start]
    answers [InvalidDuration] exactly when the planned duration is missing
    or outside 60..3600 seconds, whether or not a session is active (59
    and 3601 fail, 60 and 3600 pass the check).  With a valid duration it
    answers [Conflict] when the user has an active session, and otherwise
    appends a new active session with [pausedTime] 0, started at the
    clock reading, and returns it. *)
Theorem start_spec (u : nat) (now : Z) (b : start_body) (db : Db) :
  (fst (start u now b db) = InvalidDuration
   <-> invalid_duration (sb_duration b) = true)
  /\ (invalid_duration (sb_duration b) = true ->
      start u now b db = (InvalidDuration, db))
  /\ (forall d, sb_duration b = Some d ->
      (invalid_duration (Some d) = true <-> d < 60 \/ 3600 < d))
  /\ (invalid_duration (Some 59) = true /\ invalid_duration (Some 3601) = true
      /\ invalid_duration (Some 60) = false /\ invalid_duration (Some 3600) = false)
  /\ (forall d s0, sb_duration b = Some d -> 60 <= d <= 3600 ->
      findOne (active_filter u) (sessions db) = Some s0 ->
      start u now b db = (Conflict, db))
  /\ (forall d, sb_duration b = Some d -> 60 <= d <= 3600 ->
      findOne (active_filter u) (sessions db) = None ->
      exists s,
        start u now b db
        = (Started (_id s) (subType s) now d (task (data s)),
           mkDb (sessions db ++ [s]) (users db) (S (next_id db)))
        /\ active_sessions u (snd (start u now b db)) = [s]
        /\ userId s = u /\ startTime s = now /\ endTime s = None
        /\ plannedDuration s = d /\ pausedTime s = 0
        /\ completed s = false /\ interrupted s = false
        /\ actualDuration s = None).
Proof.
  assert (Hvalid : forall d, 60 <= d <= 3600 -> invalid_duration (Some d) = false).
  { intros d Hd. destruct (invalid_duration (Some d)) eqn:E; [|reflexivity].
    apply invalid_duration_range in E. lia. }
  split; [|split; [|split; [|split; [|split]]]].
  - unfold start. destruct (sb_duration b) as [d|]; [|simpl; tauto].
    destruct (invalid_duration (Some d)); [simpl; tauto|].
    destruct (findOne _ _); simpl; split; discriminate.
  - intros H. unfold start. rewrite H. reflexivity.
  - intros d _. apply invalid_duration_range.
  - repeat split.
  - intros d s0 Hd Hr Hf. unfold start. rewrite Hd, (Hvalid d Hr), Hf. reflexivity.
  - intros d Hd Hr Hf. unfold start. rewrite Hd, (Hvalid d Hr), Hf.
    exists (new_session (next_id db) u now b d).
    rewrite pre_save_new_session. cbn [snd]. unfold active_sessions. cbn [sessions].
    rewrite filter_app_single, (findOne_none_filter _ _ Hf).
    unfold active_filter at 1. cbn. rewrite Nat.eqb_refl.
    destruct (sb_type b) as [[| | |]|]; cbn; repeat split.
Qed.

(** 59 seconds is refused, 60 seconds starts a session, and a second
    start of 3600 seconds meets the session just started. *)
Lemma start_spec_witness :
  let b := mkStart (Some short_break) (Some 60) (Some "tea") None in
  let db := empty_store [] in
  let db1 := snd (start 7 1000 b db) in
  start 7 1000 (mkStart None (Some 59) None None) db = (InvalidDuration, db)
  /\ start 7 2000 (mkStart None (Some 3600) None None) db1 = (Conflict, db1)
  /\ exists s,
      start 7 1000 b db
      = (Started (_id s) (subType s) 1000 60 (task (data s)),
         mkDb (sessions db ++ [s]) (users db) (S (next_id db)))
      /\ pausedTime s = 0 /\ endTime s = None.
Proof.
  intros b db db1. split; [|split].
  - exact (proj1 (proj2 (start_spec 7 1000 (mkStart None (Some 59) None None) db))
             eq_refl).
  - refine (proj1 (proj2 (proj2 (proj2 (proj2
              (start_spec 7 2000 (mkStart None (Some 3600) None None) db1)))))
              3600 _ eq_refl _ eq_refl).
    lia.
  - destruct (proj2 (proj2 (proj2 (proj2 (proj2 (start_spec 7 1000 b db)))))
                60 eq_refl ltac:(lia) eq_refl)
      as (s & H1 & _ & _ & _ & H5 & _ & H7 & _).
    exists s. repeat split; assumption.
Defined.

(** C4 as stated fails where both conditions meet: with an active
    session and a planned duration of 59 seconds the answer is
    [InvalidDuration], not [Conflict]. *)
Lemma start_invalid_before_conflict :
  let db := run (empty_store [])
              [mkEvent 7 0 (ReqStart (mkStart (Some work) (Some 1500) None None))] in
  findOne (active_filter 7) (sessions db)
  = Some (mkSession 0 7 pomodoro work 0 None 1500 None false false 0
            (mkData (Some "") None (Some "none")) None)
  /\ start 7 5000 (mkStart (Some work) (Some 59) None None) db
     = (InvalidDuration, db)
  /\ InvalidDuration <> Conflict.
Proof. repeat split. discriminate. Qed.

(* ================================================================== *)
(** ** Timer engine: stop and pause *)

Lemma findOne_first {A : Type} (p : A -> bool) (l1 l2 : list A) (x : A) :
  Forall (fun y => p y = false) l1 -> p x = true ->
  findOne p (l1 ++ x :: l2) = Some x.
Proof.
  unfold findOne. intros H Hx. induction H as [|y r Hy _ IH]; simpl.
  - rewrite Hx. reflexivity.
  - rewrite Hy. assumption.
Qed.

(** Once the only active session of a user has been given an [endTime],
    the user has no active session. *)
Lemma terminated_no_active (u : nat) (f : ClockSession -> ClockSession)
    (l : list ClockSession) :
  (List.length (filter (active_filter u) l) <= 1)%nat ->
  (forall s, active_filter u (f s) = false) ->
  findOne (active_filter u) (snd (findOneAndUpdate (active_filter u) f l)) = None.
Proof.
  intros Hlen Hf. induction l as [|x r IH]; simpl; [reflexivity|].
  simpl in Hlen. destruct (active_filter u x) eqn:Hx; simpl.
  - rewrite Hf. simpl in Hlen. rewrite findOne_filter_hd.
    destruct (filter (active_filter u) r); [reflexivity|simpl in Hlen; lia].
  - destruct (findOneAndUpdate (active_filter u) f r) as [o r'] eqn:Hr.
    simpl in *. rewrite Hx. auto.
Qed.

Lemma complete_sessions (u : nat) (now : Z) (prod : option Z)
    (nts : option string) (db : Db) :
  sessions (snd (complete u now prod nts db))
  = snd (findOneAndUpdate (active_filter u) (complete_update now prod nts)
           (sessions db)).
Proof.
  unfold complete.
  pose proof (findOneAndUpdate_fst_none (active_filter u)
                (complete_update now prod nts) (sessions db)) as Hn.
  destruct (findOneAndUpdate _ _ _) as [[s|] l]; simpl in *; [reflexivity|].
  symmetry. apply Hn. reflexivity.
Qed.

(** C5.  [stop] on an active session sets [endTime] to the clock
    reading, [interrupted] to true and [completed] to false, and changes
    neither another field of the session nor any other session nor the
    users' statistics.  After [complete], whatever
    the sequence of operations that led to the store, a [stop] of the same
    user finds no active session. *)
Theorem stop_spec (u : nat) (now : Z) (reason : option string) (db : Db) :
  (forall s, findOne (active_filter u) (sessions db) = Some s ->
     exists l1 l2 s',
       sessions db = l1 ++ s :: l2
       /\ stop u now reason db
          = (Stopped (_id s) (subType s) (actualDuration s),
             mkDb (l1 ++ s' :: l2) (users db) (next_id db))
       /\ endTime s' = Some now
       /\ interrupted s' = true
       /\ completed s' = false
       /\ (_id s', userId s', type s', subType s', startTime s',
           plannedDuration s', pausedTime s', actualDuration s',
           productivity s', task (data s'), notes (data s'),
           ambientSound (data s'))
          = (_id s, userId s, type s, subType s, startTime s,
             plannedDuration s, pausedTime s, actualDuration s,
             productivity s, task (data s), notes (data s),
             ambientSound (data s))
       /\ users (snd (stop u now reason db)) = users db)
  /\ (forall us tr now1 prod nts,
        db = run (empty_store us) tr ->
        stop u now reason (snd (complete u now1 prod nts db))
        = (NoActiveSession, snd (complete u now1 prod nts db))).
Proof.
  split.
  - intros s H.
    destruct (findOneAndUpdate_some (active_filter u)
                (stop_update now match reason with
                                 | Some r => r
                                 | None => "user_cancelled"
                                 end) _ _ H)
      as (l1 & l2 & Hl & _ & _ & Hu).
    exists l1, l2. eexists. unfold stop. rewrite Hu. simpl.
    repeat split. assumption.
  - intros us tr now1 prod nts ->. unfold stop at 1.
    rewrite findOneAndUpdate_none; [reflexivity|].
    rewrite complete_sessions. apply terminated_no_active.
    + apply (run_one_active tr (empty_store us) (empty_store_one_active us) u).
    + intros s. unfold active_filter. simpl. rewrite andb_false_r. reflexivity.
Qed.

(** A session with 30 seconds paused is stopped: the paused time is kept;
    once completed, the session cannot be stopped. *)
Lemma stop_spec_witness :
  let tr := [mkEvent 7 0 (ReqStart (mkStart (Some work) (Some 1500) (Some "essay") None));
             mkEvent 7 60000 (ReqPause (Some 30))] in
  let db := run (empty_store [mkUser 7 default_stats]) tr in
  let s := mkSession 0 7 pomodoro work 0 None 1500 None false false 30
             (mkData (Some "essay") None (Some "none")) None in
  (exists l1 l2 s',
      sessions db = l1 ++ s :: l2
      /\ stop 7 90000 None db
         = (Stopped 0 work None, mkDb (l1 ++ s' :: l2) (users db) (next_id db))
      /\ interrupted s' = true /\ completed s' = false
      /\ pausedTime s' = 30)
  /\ stop 7 1500000 None (snd (complete 7 900000 None None db))
     = (NoActiveSession, snd (complete 7 900000 None None db)).
Proof.
  intros tr db s. split.
  - destruct (proj1 (stop_spec 7 90000 None db) s eq_refl)
      as (l1 & l2 & s' & H1 & H2 & _ & H4 & H5 & H6 & _).
    exists l1, l2, s'. repeat split; try assumption.
    injection H6. intros. assumption.
  - exact (proj2 (stop_spec 7 1500000 None db)
             [mkUser 7 default_stats] tr 900000 None None eq_refl).
Defined.

Lemma pause_active (u : nat) (p : option Z) (db : Db) (s : ClockSession) :
  findOne (active_filter u) (sessions db) = Some s ->
  let delta := match p with Some n => n | None => 0 end in
  exists l1 l2,
    sessions db = l1 ++ s :: l2
    /\ pause u p db
       = (PauseRecorded (pausedTime s + delta),
          mkDb (l1 ++ pause_update delta s :: l2) (users db) (next_id db))
    /\ findOne (active_filter u) (l1 ++ pause_update delta s :: l2)
       = Some (pause_update delta s).
Proof.
  intros H delta.
  destruct (findOneAndUpdate_some (active_filter u) (pause_update delta) _ _ H)
    as (l1 & l2 & Hl & Hl1 & Hs & Hu).
  exists l1, l2. unfold pause. fold delta. rewrite Hu. simpl.
  repeat split; [assumption|].
  apply findOne_first; assumption.
Qed.

(** C6.  [pause] answers [NoActiveSession] and leaves the store alone
    when the user has no active session.  Otherwise, for a paused time
    and a reported amount (0 when the body has none) that are safe
    integers with a safe sum, it adds the amount to [pausedTime] of the
    active session, changes nothing else, and returns the new total.  Two
    pauses of 10 and 15 seconds add 25: on a session just started the
    total is 25. *)
Theorem pause_spec (u : nat) (p : option Z) (db : Db) :
  (findOne (active_filter u) (sessions db) = None ->
   pause u p db = (NoActiveSession, db))
  /\ (forall s, findOne (active_filter u) (sessions db) = Some s ->
      let delta := match p with Some n => n | None => 0 end in
      safe_integer (pausedTime s) -> safe_integer delta ->
      safe_integer (pausedTime s + delta) ->
      exists l1 l2 s',
        sessions db = l1 ++ s :: l2
        /\ Forall (fun x => active_filter u x = false) l1
        /\ pause u p db
           = (PauseRecorded (pausedTime s + delta),
              mkDb (l1 ++ s' :: l2) (users db) (next_id db))
        /\ pausedTime s' = pausedTime s + delta
        /\ (_id s', userId s', type s', subType s', startTime s', endTime s',
            plannedDuration s', actualDuration s', completed s',
            interrupted s', data s', productivity s')
           = (_id s, userId s, type s, subType s, startTime s, endTime s,
              plannedDuration s, actualDuration s, completed s,
              interrupted s, data s, productivity s))
  /\ (forall s, findOne (active_filter u) (sessions db) = Some s ->
      safe_integer (pausedTime s) -> safe_integer (pausedTime s + 10) ->
      safe_integer (pausedTime s + 25) ->
      fst (pause u (Some 15) (snd (pause u (Some 10) db)))
      = PauseRecorded (pausedTime s + 25)
      /\ (pausedTime s = 0 ->
          fst (pause u (Some 15) (snd (pause u (Some 10) db)))
          = PauseRecorded 25)).
Proof.
  split; [|split].
  - intros H. unfold pause. rewrite (findOneAndUpdate_none _ _ _ H). reflexivity.
  - intros s H delta _ _ _.
    destruct (findOneAndUpdate_some (active_filter u) (pause_update delta) _ _ H)
      as (l1 & l2 & Hl & Hl1 & _ & Hu).
    exists l1, l2, (pause_update delta s). unfold pause. fold delta.
    rewrite Hu. repeat split; assumption.
  - intros s H _ _ _.
    destruct (pause_active u (Some 10) db s H) as (l1 & l2 & H1 & H2 & H3).
    assert (E : fst (pause u (Some 15) (snd (pause u (Some 10) db)))
                = PauseRecorded (pausedTime s + 25)).
    { rewrite H2. cbn [snd].
      destruct (pause_active u (Some 15)
                  (mkDb (l1 ++ pause_update 10 s :: l2) (users db) (next_id db))
                  (pause_update 10 s) H3) as (m1 & m2 & _ & H5 & _).
      rewrite H5. cbn. f_equal. lia. }
    split; [exact E|]. intros H0. rewrite E, H0. reflexivity.
Qed.

(** Pauses of 10 and 15 seconds on a session just started. *)
Lemma pause_spec_witness :
  let db := run (empty_store [])
              [mkEvent 7 0 (ReqStart (mkStart (Some work) (Some 1500) None None))] in
  let s := mkSession 0 7 pomodoro work 0 None 1500 None false false 0
             (mkData (Some "") None (Some "none")) None in
  pause 8 (Some 10) db = (NoActiveSession, db)
  /\ fst (pause 7 (Some 10) db) = PauseRecorded 10
  /\ fst (pause 7 (Some 15) (snd (pause 7 (Some 10) db))) = PauseRecorded 25.
Proof.
  intros db s. split; [|split].
  - exact (proj1 (pause_spec 8 (Some 10) db) eq_refl).
  - destruct (proj1 (proj2 (pause_spec 7 (Some 10) db)) s eq_refl
                ltac:(safe_int) ltac:(safe_int) ltac:(safe_int))
      as (l1 & l2 & s' & _ & _ & H2 & _).
    rewrite H2. reflexivity.
  - exact (proj2 (proj2 (proj2 (pause_spec 7 (Some 10) db)) s eq_refl
                    ltac:(safe_int) ltac:(safe_int) ltac:(safe_int)) eq_refl).
Defined.

(* ================================================================== *)
(** ** Statistics *)

Lemma findOneAndUpdate_In {A : Type} (p : A -> bool) (f : A -> A)
    (l l' : list A) (y : A) :
  findOneAndUpdate p f l = (Some y, l') -> exists x, In x l /\ y = f x.
Proof.
  revert l'. induction l as [|x r IH]; simpl; intros l'; [discriminate|].
  destruct (p x).
  - intros [= <- _]. eauto.
  - destruct (findOneAndUpdate p f r) as [o r'].
    intros [= -> _]. destruct (IH r' eq_refl) as (x0 & Hin & ->). eauto.
Qed.

(** While no stored session carries an [actualDuration], no request
    changes the users' statistics. *)
Lemma step_users_unchanged (e : event) (db : Db) :
  no_actualDuration db -> users (snd (handle e db)) = users db.
Proof.
  intros Hinv. destruct e as [u now r]. unfold handle. simpl.
  destruct r as [b|p|pr n|rs].
  - unfold start. destruct (invalid_duration _); [reflexivity|].
    destruct (sb_duration b); [|reflexivity].
    destruct (findOne _ _); reflexivity.
  - unfold pause. destruct (findOneAndUpdate _ _ _) as [[s|] l]; reflexivity.
  - unfold complete.
    destruct (findOneAndUpdate _ _ _) as [[s|] l] eqn:Hu; [|reflexivity].
    apply findOneAndUpdate_In in Hu as (x & Hin & ->). simpl.
    unfold no_actualDuration in Hinv. rewrite Forall_forall in Hinv.
    rewrite (Hinv x Hin). simpl. rewrite andb_false_r. reflexivity.
  - unfold stop. destruct (findOneAndUpdate _ _ _) as [[s|] l]; reflexivity.
Qed.

(** From a store without sessions, no sequence of start, pause, complete
    and stop requests changes any user's statistics. *)
Lemma run_users_unchanged (us : list User) (tr : list event) :
  users (run (empty_store us) tr) = us.
Proof.
  change us with (users (empty_store us)) at 2.
  assert (H : no_actualDuration (empty_store us)) by constructor.
  revert H. generalize (empty_store us) as db.
  induction tr as [|e r IH]; simpl; intros db H; [reflexivity|].
  rewrite IH; auto using step_users_unchanged, step_no_actualDuration.
Qed.

(** Completion through the route.  A work session of 1500 seconds is
    started and completed 1500 seconds later.  The reply carries no
    duration and the user's statistics are what they were.  The save
    middleware, which [findOneAndUpdate] does not run, would have stored
    1500 seconds, and the statistics update applied to that value counts
    one pomodoro and 25 minutes of focus. *)
Lemma work_completion_not_recorded :
  let us := [mkUser 7 default_stats] in
  let db := run (empty_store us)
              [mkEvent 7 0 (ReqStart (mkStart (Some work) (Some 1500) None None))] in
  let r := complete 7 1500000 (Some 4) None db in
  fst r = Completed 0 work None
  /\ users (snd r) = us
  /\ map (fun s => (type s, completed s, endTime s, actualDuration s,
                    actualDuration (pre_save s)))
         (sessions (snd r))
     = [(pomodoro, true, Some 1500000, None, Some 1500)]
  /\ stats_update 1500 (Some 1500000) default_stats
     = mkStats 25 1 1 0 0 (Some 1500000).
Proof. repeat split. Qed.

(** The statistics update never touches the streak counters, on any
    store: after it [currentStreak] and [longestStreak] hold the values
    they had, so [longestStreak] is the maximum of itself and
    [currentStreak] afterwards exactly when it was not below
    [currentStreak] before; and no [complete] request changes the streak
    counters of any user. *)
Theorem streaks_untouched (a : Z) (e : option Z) (st : user_stats)
    (u : nat) (now : Z) (prod : option Z) (nts : option string) (db : Db) :
  currentStreak (stats_update a e st) = currentStreak st
  /\ longestStreak (stats_update a e st) = longestStreak st
  /\ (longestStreak (stats_update a e st)
      = Z.max (longestStreak st) (currentStreak (stats_update a e st))
      <-> currentStreak st <= longestStreak st)
  /\ map (fun x => (user_id x, currentStreak (stats x), longestStreak (stats x)))
         (users (snd (complete u now prod nts db)))
     = map (fun x => (user_id x, currentStreak (stats x), longestStreak (stats x)))
           (users db).
Proof.
  repeat split; simpl; try lia.
  unfold complete.
  destruct (findOneAndUpdate _ _ _) as [[s|] l]; [|reflexivity]. simpl.
  destruct (session_type_eqb (type s) pomodoro && truthy (actualDuration s));
    [|reflexivity].
  destruct (actualDuration s) as [d|]; [|reflexivity].
  unfold findByIdAndUpdate. induction (users db) as [|x r IH]; [reflexivity|].
  simpl. destruct (Nat.eqb (user_id x) u); simpl.
  - reflexivity.
  - destruct (findOneAndUpdate _ _ r) as [o r']. simpl in *. rewrite IH.
    reflexivity.
Qed.

(** The update document on a store that no request sequence produces: a
    user with a streak of 1 from the day before, and an active work
    session whose document already carries an [actualDuration].  The
    completion is recorded, counters and date move, and the streak stays
    at 1. *)
Lemma streak_not_incremented :
  let day1 := 1700000000000 in
  let day2 := day1 + 86400000 in
  let st := mkStats 25 1 1 1 1 (Some day1) in
  calendar_day day2 = calendar_day day1 + 1
  /\ spec_currentStreak (lastSessionDate st) day2 (currentStreak st) = 2
  /\ stats_update 1500 (Some day2) st = mkStats 50 2 2 1 1 (Some day2)
  /\ users (snd (complete 7 day2 None None
                   (mkDb [mkSession 0 7 pomodoro work (day2 - 1500000) None 1500
                            (Some 1500) false false 0
                            (mkData None None None) None]
                         [mkUser 7 st] 1)))
     = [mkUser 7 (mkStats 50 2 2 1 1 (Some day2))].
Proof. repeat split. Qed.

(** *** The statistics update of complete *)

Lemma update_of_kind (e : event) (f : ClockSession -> ClockSession)
    (s : ClockSession) :
  update_of e = Some f -> kind_consistent s -> kind_consistent (f s).
Proof.
  unfold update_of, kind_consistent.
  destruct (ev_req e); intros [= <-]; simpl; tauto.
Qed.

Lemma step_kind_consistent (e : event) (db : Db) :
  Forall kind_consistent (sessions db) ->
  Forall kind_consistent (sessions (snd (handle e db))).
Proof.
  intros Hinv.
  destruct (handle_sessions e db) as [(b & d & _ & _ & ->)|[(f & Hf & ->)| ->]].
  - apply Forall_app. split; [assumption|].
    constructor; [|constructor]. unfold kind_consistent. simpl.
    destruct (sb_type b) as [[| | |]|]; split; intros; congruence.
  - apply Forall2_Forall_r
      with (R := fun x y => kind_consistent x -> kind_consistent y)
           (l := sessions db); auto.
    apply findOneAndUpdate_Forall2; [auto|].
    intros x _. apply (update_of_kind e f x Hf).
  - assumption.
Qed.

Lemma run_kind_consistent (tr : list event) (db : Db) :
  Forall kind_consistent (sessions db) ->
  Forall kind_consistent (sessions (run db tr)).
Proof.
  revert db. induction tr as [|e r IH]; simpl; auto using step_kind_consistent.
Qed.

Lemma findByIdAndUpdate_first (u : nat) (f : user_stats -> user_stats)
    (l : list User) (x : User) :
  findOne (fun y => Nat.eqb (user_id y) u) l = Some x ->
  exists l1 l2,
    l = l1 ++ x :: l2
    /\ Forall (fun y => user_id y <> u) l1
    /\ user_id x = u
    /\ findByIdAndUpdate u f l = l1 ++ mkUser u (f (stats x)) :: l2.
Proof.
  intros H. unfold findByIdAndUpdate.
  destruct (findOneAndUpdate_some (fun y => Nat.eqb (user_id y) u)
              (fun y => mkUser (user_id y) (f (stats y))) l x H)
    as (l1 & l2 & Hl & Hl1 & Hx & ->).
  apply Nat.eqb_eq in Hx. exists l1, l2. cbn [snd]. rewrite Hx.
  repeat split; try assumption.
  eapply Forall_impl; [|exact Hl1]. cbn. intros y Hy. apply Nat.eqb_neq. exact Hy.
Qed.

(** C7.  Completing the active session of a user triggers the
    statistics update exactly when the session is of kind work and its
    [actualDuration] is defined (a stored 0, which no session carries,
    would count as missing).  The update, on safe integers, adds 1 to
    [completedPomodoros] and to [totalSessions], adds
    [floor (actualDuration / 60)] to [totalFocusTime] and sets
    [lastSessionDate] to the completion time, in the record of the user
    and in no other; completing a session of a break kind, or one whose
    [actualDuration] is not defined, leaves the statistics of every user
    as they were.  On the stores the requests produce, sessions carry no
    [actualDuration], so no completion changes the statistics. *)
Theorem completion_statistics (u : nat) (now : Z) (prod : option Z)
    (nts : option string) (db : Db) (s : ClockSession) :
  findOne (active_filter u) (sessions db) = Some s ->
  kind_consistent s ->
  actualDuration s <> Some 0 ->
  let r := complete u now prod nts db in
  (forall a x,
      subType s = work -> actualDuration s = Some a ->
      findOne (fun y => Nat.eqb (user_id y) u) (users db) = Some x ->
      safe_stats_update a (stats x) ->
      exists l1 l2,
        users db = l1 ++ x :: l2
        /\ Forall (fun y => user_id y <> u) l1
        /\ users (snd r)
           = l1 ++ mkUser u (mkStats (totalFocusTime (stats x) + a / 60)
                                     (completedPomodoros (stats x) + 1)
                                     (totalSessions (stats x) + 1)
                                     (longestStreak (stats x))
                                     (currentStreak (stats x))
                                     (Some now)) :: l2)
  /\ (subType s <> work \/ actualDuration s = None -> users (snd r) = users db)
  /\ (forall us tr, db = run (empty_store us) tr ->
        actualDuration s = None /\ users (snd r) = users db).
Proof.
  intros H Hk H0 r.
  destruct (findOneAndUpdate_some (active_filter u)
              (complete_update now prod nts) _ _ H)
    as (l1 & l2 & Hl & _ & _ & Hu).
  assert (Hr : users (snd r)
               = if session_type_eqb (type s) pomodoro && truthy (actualDuration s)
                 then match actualDuration s with
                      | Some a => findByIdAndUpdate u (stats_update a (Some now))
                                    (users db)
                      | None => users db
                      end
                 else users db).
  { subst r. unfold complete. rewrite Hu. cbn.
    destruct (session_type_eqb (type s) pomodoro && truthy (actualDuration s));
      reflexivity. }
  assert (Hnone : subType s <> work \/ actualDuration s = None ->
                  users (snd r) = users db).
  { intros [Hw| Hn]; rewrite Hr.
    - destruct (type s) eqn:Ht; [|reflexivity|reflexivity].
      exfalso. apply Hw, Hk. exact Ht.
    - rewrite Hn. rewrite andb_false_r. reflexivity. }
  split; [|split; [exact Hnone|]].
  - intros a x Hw Ha Hx _. rewrite Hr, Ha.
    assert (Ht : type s = pomodoro) by (apply Hk; exact Hw). rewrite Ht.
    assert (Hz : truthy (Some a) = true).
    { cbn. destruct (Z.eqb_spec a 0) as [->|_]; [congruence|reflexivity]. }
    rewrite Hz. cbn [session_type_eqb andb].
    destruct (findByIdAndUpdate_first u (stats_update a (Some now)) _ x Hx)
      as (m1 & m2 & Hm & Hm1 & _ & ->).
    exists m1, m2. repeat split; assumption.
  - intros us tr ->.
    assert (Hn : actualDuration s = None).
    { assert (Hall : no_actualDuration (run (empty_store us) tr))
        by (apply run_no_actualDuration; constructor).
      unfold no_actualDuration in Hall. rewrite Forall_forall in Hall.
      apply Hall. rewrite Hl. apply in_or_app. right. left. reflexivity. }
    split; [exact Hn|]. apply Hnone. right. exact Hn.
Qed.

(** A break completed on a store the requests produced leaves the
    statistics alone; a work session whose document carries 1500 seconds
    is recorded as one pomodoro and 25 minutes, dated at the completion. *)
Lemma completion_statistics_witness :
  let us := [mkUser 8 default_stats; mkUser 7 default_stats] in
  let db := run (empty_store us)
              [mkEvent 7 0 (ReqStart (mkStart (Some short_break) (Some 300) None None))] in
  let s := mkSession 0 7 break short_break 0 None 300 None false false 0
             (mkData (Some "") None (Some "none")) None in
  let w := mkSession 0 7 pomodoro work 0 None 1500 (Some 1500) false false 0
             (mkData (Some "") None (Some "none")) None in
  users (snd (complete 7 300000 None None db)) = us
  /\ exists l1 l2,
      us = l1 ++ mkUser 7 default_stats :: l2
      /\ users (snd (complete 7 1500000 None None (mkDb [w] us 1)))
         = l1 ++ mkUser 7 (mkStats 25 1 1 0 0 (Some 1500000)) :: l2.
Proof.
  intros us db s w. split.
  - refine (proj1 (proj2 (completion_statistics 7 300000 None None db s
                            eq_refl _ _)) _).
    + unfold kind_consistent. cbn. split; discriminate.
    + discriminate.
    + left. discriminate.
  - destruct (proj1 (completion_statistics 7 1500000 None None (mkDb [w] us 1) w
                       eq_refl ltac:(unfold kind_consistent; cbn; tauto)
                       ltac:(discriminate))
                1500 (mkUser 7 default_stats) eq_refl eq_refl eq_refl
                ltac:(unfold safe_stats_update; cbn; repeat split; safe_int))
      as (l1 & l2 & H1 & _ & H3).
    exists l1, l2. split; [exact H1|exact H3].
Defined.



(* ================================================================== *)
(** ** Weather cache *)

Lemma findOne_exists {A : Type} (p : A -> bool) (l : list A) (x : A) :
  In x l -> p x = true -> exists y, findOne p l = Some y /\ In y l /\ p y = true.
Proof.
  unfold findOne. intros Hin Hp. destruct (find p l) as [y|] eqn:E.
  - exists y. apply find_some in E. tauto.
  - rewrite (find_none _ _ E x Hin) in Hp. discriminate.
Qed.

Lemma findOne_all_false {A : Type} (p : A -> bool) (l : list A) :
  (forall x, In x l -> p x = false) -> findOne p l = None.
Proof.
  unfold findOne. intros H. destruct (find p l) as [y|] eqn:E; [|reflexivity].
  apply find_some in E as [Hin Hp]. rewrite (H y Hin) in Hp. discriminate.
Qed.

Lemma findOne_app_miss {A : Type} (p : A -> bool) (l : list A) (x : A) :
  p x = false -> findOne p (l ++ [x]) = findOne p l.
Proof.
  unfold findOne. intros Hx. induction l as [|y r IH]; simpl.
  - rewrite Hx. reflexivity.
  - destruct (p y); [reflexivity|assumption].
Qed.

Lemma cacheKey_true (la lo : Q) (now : Z) (e : Weather.WeatherCache) :
  Weather.cacheKey la lo now e = true
  <-> (Weather.lat (Weather.location e) == la)%Q
      /\ (Weather.lon (Weather.location e) == lo)%Q
      /\ now < Weather.expiresAt e.
Proof.
  unfold Weather.cacheKey.
  rewrite !andb_true_iff, !Qeq_bool_iff, Z.ltb_lt. tauto.
Qed.

(** The error handler always answers with one of the three kinds. *)
Lemma on_error_cases (e : Weather.axios_error) :
  (Weather.code_is e "ENOTFOUND" || Weather.code_is e "ECONNREFUSED" = true
   /\ Weather.on_error e = Weather.ProviderUnavailable)
  \/ (Weather.code_is e "ENOTFOUND" || Weather.code_is e "ECONNREFUSED" = false
      /\ Weather.response_status e = Some 401
      /\ Weather.on_error e = Weather.ProviderMisconfigured)
  \/ (Weather.code_is e "ENOTFOUND" || Weather.code_is e "ECONNREFUSED" = false
      /\ Weather.response_status e <> Some 401
      /\ Weather.on_error e = Weather.ProviderError).
Proof.
  unfold Weather.on_error.
  destruct (Weather.code_is e "ENOTFOUND" || Weather.code_is e "ECONNREFUSED");
    [auto|].
  destruct (Weather.response_status e) as [s|].
  - destruct (s =? 401) eqn:E.
    + apply Z.eqb_eq in E. subst. auto.
    + apply Z.eqb_neq in E. right; right. repeat split; congruence.
  - right; right. repeat split; congruence.
Qed.

(** C9, as the code has it.  When an entry with the requested coordinates
    and [expiresAt > now] exists, the first such entry of the collection
    is returned with [cached = true], its stored snapshot unchanged, and
    neither the provider nor the store is touched.  Otherwise, without an
    API key the answer is a 503 and the provider is not called; with a
    key the provider is called exactly once.  When it answers with a
    payload that names a city and carries a condition, a new entry is
    appended to the collection (earlier entries stay) and returned with
    [cached = false]: its [timestamp], its [cachedAt] and its [expiresAt]
    minus 10 minutes are the three clock readings made after the answer.
    A payload without city or condition gives [ProviderError].  When the
    provider fails, the error is [ProviderUnavailable] exactly for the
    codes ENOTFOUND and ECONNREFUSED, otherwise [ProviderMisconfigured]
    exactly for status 401, otherwise [ProviderError]; in all these cases
    the collection is unchanged. *)
Theorem get_current_spec (key : option string)
    (fetcher : Q -> Q -> Weather.axios_result) (now : Z)
    (now' : Weather.save_clock) (la lo : Q) (st : Weather.state) :
  let r := Weather.get_current key fetcher now now' (Some la) (Some lo) st in
  let st1 := Weather.mkState (Weather.cache st)
                             (Weather.upstream st ++ [(la, lo)]) in
  (forall e0, In e0 (Weather.cache st) -> Weather.cacheKey la lo now e0 = true ->
     exists l1 e l2,
       Weather.cache st = l1 ++ e :: l2
       /\ Forall (fun x => Weather.cacheKey la lo now x = false) l1
       /\ Weather.cacheKey la lo now e = true
       /\ r = (Weather.Ok (Weather.current e) true (Weather.location e), st))
  /\ ((forall e0, In e0 (Weather.cache st) -> Weather.cacheKey la lo now e0 = false) ->
      (Weather.configured key = false -> r = (Weather.NotConfigured, st))
      /\ (Weather.configured key = true ->
          Weather.upstream (snd r) = Weather.upstream st ++ [(la, lo)]
          /\ (forall e, fetcher la lo = Weather.Rejected e ->
                r = (Weather.on_error e, st1))
          /\ (forall d, fetcher la lo = Weather.Resolved d ->
                Weather.weather d = [] \/ Weather.name d = "" ->
                r = (Weather.ProviderError, st1))
          /\ (forall d c rest, fetcher la lo = Weather.Resolved d ->
                Weather.weather d = c :: rest -> Weather.name d <> "" ->
                let entry :=
                  Weather.mkCache
                    (Weather.mkLocation (Weather.name d) (Weather.sys_country d)
                                        la lo)
                    (Weather.process d c (Weather.at_timestamp now'))
                    "openweather" (Weather.at_cachedAt now')
                    (Weather.at_expiresAt now' + 600000) in
                r = (Weather.Ok (Weather.current entry) false
                                (Weather.location entry),
                     Weather.mkState (Weather.cache st ++ [entry])
                                     (Weather.upstream st ++ [(la, lo)])))))
  /\ (forall e,
        (Weather.code e = Some "ENOTFOUND" \/ Weather.code e = Some "ECONNREFUSED" ->
         Weather.on_error e = Weather.ProviderUnavailable)
        /\ (Weather.code e <> Some "ENOTFOUND" ->
            Weather.code e <> Some "ECONNREFUSED" ->
            (Weather.response_status e = Some 401 ->
             Weather.on_error e = Weather.ProviderMisconfigured)
            /\ (Weather.response_status e <> Some 401 ->
                Weather.on_error e = Weather.ProviderError))).
Proof.
  intros r st1. subst r st1. unfold Weather.get_current. split; [|split].
  - intros e0 Hin Hk.
    destruct (findOne_exists _ _ _ Hin Hk) as (e & He & _ & _).
    destruct (findOneAndUpdate_some (Weather.cacheKey la lo now) (fun x => x)
                _ _ He) as (l1 & l2 & Hl & Hl1 & Hke & _).
    rewrite He. exists l1, e, l2. auto.
  - intros Hmiss. rewrite (findOne_all_false _ _ Hmiss). split.
    + intros ->. reflexivity.
    + intros ->. cbn [negb]. split; [|split; [|split]].
      * destruct (fetcher la lo) as [d|e]; [|reflexivity].
        destruct (Weather.weather d); [reflexivity|].
        destruct (Weather.validate _); reflexivity.
      * intros e ->. reflexivity.
      * intros d -> [Hw|Hn].
        -- rewrite Hw. reflexivity.
        -- destruct (Weather.weather d); [reflexivity|].
           unfold Weather.validate. cbn. rewrite Hn. reflexivity.
      * intros d c rest -> -> Hname.
        unfold Weather.validate. cbn.
        destruct (String.eqb (Weather.name d) "") eqn:E.
        -- apply String.eqb_eq in E. contradiction.
        -- reflexivity.
  - intros e. unfold Weather.on_error, Weather.code_is. split.
    + intros [-> | ->]; reflexivity.
    + intros H1 H2.
      assert (E1 : match Weather.code e with
                   | Some x => String.eqb x "ENOTFOUND"
                   | None => false
                   end = false).
      { destruct (Weather.code e) as [x|]; [|reflexivity].
        apply String.eqb_neq. congruence. }
      assert (E2 : match Weather.code e with
                   | Some x => String.eqb x "ECONNREFUSED"
                   | None => false
                   end = false).
      { destruct (Weather.code e) as [x|]; [|reflexivity].
        apply String.eqb_neq. congruence. }
      rewrite E1, E2. cbn [orb]. split.
      * intros ->. reflexivity.
      * intros H3. destruct (Weather.response_status e) as [n|]; [|reflexivity].
        destruct (Z.eqb_spec n 401) as [->|_]; [congruence|reflexivity].
Qed.

(** A miss that fetches and stores, the hit that follows while the
    provider is down, a miss without API key, a miss with the provider
    down, and a provider that times out. *)
Lemma get_current_spec_witness :
  let la := (40712 # 1000)%Q in
  let lo := (-74006 # 1000)%Q in
  let st0 := Weather.mkState [] [] in
  let clk := Weather.mkSaveClock 150 151 152 in
  let entry := Weather.mkCache (Weather.mkLocation "New York" "US" la lo)
                 (Weather.process sample_payload clear_sky 150)
                 "openweather" 151 600152 in
  let r1 := Weather.get_current (Some "k") provider_up 0 clk (Some la) (Some lo) st0 in
  r1 = (Weather.Ok (Weather.current entry) false (Weather.location entry),
        Weather.mkState [entry] [(la, lo)])
  /\ (exists l1 e l2,
        Weather.cache (snd r1) = l1 ++ e :: l2
        /\ Weather.get_current (Some "k") provider_down 1000 (same_ms 1100)
             (Some la) (Some lo) (snd r1)
           = (Weather.Ok (Weather.current e) true (Weather.location e), snd r1))
  /\ Weather.get_current None provider_up 0 clk (Some la) (Some lo) st0
     = (Weather.NotConfigured, st0)
  /\ Weather.get_current (Some "k") provider_down 0 clk (Some la) (Some lo) st0
     = (Weather.ProviderUnavailable, Weather.mkState [] [(la, lo)])
  /\ Weather.on_error (Weather.mkError (Some "ECONNABORTED") None)
     = Weather.ProviderError.
Proof.
  intros la lo st0 clk entry r1.
  assert (Hmiss : forall e0 : Weather.WeatherCache,
             In e0 (Weather.cache st0) -> Weather.cacheKey la lo 0 e0 = false).
  { intros e0 []. }
  split; [|split; [|split; [|split]]].
  - refine (proj2 (proj2 (proj2 (proj2 (proj1 (proj2
              (get_current_spec (Some "k") provider_up 0 clk la lo st0)) Hmiss)
              eq_refl))) sample_payload clear_sky [] eq_refl eq_refl _).
    discriminate.
  - destruct (proj1 (get_current_spec (Some "k") provider_down 1000 (same_ms 1100)
                       la lo (snd r1))
                entry (or_introl eq_refl) eq_refl)
      as (l1 & e & l2 & H1 & _ & _ & H4).
    exists l1, e, l2. split; assumption.
  - exact (proj1 (proj1 (proj2
             (get_current_spec None provider_up 0 clk la lo st0)) Hmiss) eq_refl).
  - exact (proj1 (proj2 (proj2 (proj1 (proj2
             (get_current_spec (Some "k") provider_down 0 clk la lo st0)) Hmiss)
             eq_refl)) (Weather.mkError (Some "ECONNREFUSED") None) eq_refl).
  - refine (proj2 (proj2 (proj2 (proj2
              (get_current_spec None provider_up 0 clk la lo st0))
              (Weather.mkError (Some "ECONNABORTED") None))
              _ _) _); discriminate.
Defined.

(** C9 as stated fails on two points.  Without an API key a miss does not
    reach the provider: the log of provider calls stays empty.  And a new
    entry does not replace the stale one for its coordinates: after a
    refresh the collection holds both. *)
Lemma get_current_counterexample :
  let la := (40712 # 1000)%Q in
  let lo := (-74006 # 1000)%Q in
  let stale := Weather.mkCache (Weather.mkLocation "New York" "US" la lo)
                 (Weather.process sample_payload clear_sky 0)
                 "openweather" 0 100 in
  Weather.get_current None provider_up 0 (same_ms 150) (Some la) (Some lo)
    (Weather.mkState [] [])
  = (Weather.NotConfigured, Weather.mkState [] [])
  /\ map (fun e => (Weather.lat (Weather.location e),
                    Weather.lon (Weather.location e),
                    Weather.cachedAt e, Weather.expiresAt e))
         (Weather.cache
            (snd (Weather.get_current (Some "k") provider_up 200 (same_ms 250)
                    (Some la) (Some lo) (Weather.mkState [stale] []))))
     = [(la, lo, 0, 100); (la, lo, 250, 600250)].
Proof. split; reflexivity. Qed.

(* ================================================================== *)
(** ** Weather cache: the key *)

(** C10, as the code has it.  The key of a cache entry is the pair of
    coordinates as parsed, not rounded.  After a request that fetched and
    stored an entry, a request at a later clock reading before the entry
    expires is a hit on that entry, with no further provider call, when
    its coordinates are equal as numbers to those of the first; a request
    with other coordinates does not see the entry at all. *)
Theorem cache_key_exact (key : option string)
    (f1 f2 : Q -> Q -> Weather.axios_result) (now now2 : Z)
    (now' now2' : Weather.save_clock)
    (la lo : Q) (st st1 : Weather.state) (w : Weather.current_weather)
    (loc : Weather.location_t) :
  Weather.get_current key f1 now now' (Some la) (Some lo) st
  = (Weather.Ok w false loc, st1) ->
  now <= now2 -> now2 < Weather.at_expiresAt now' + Weather.ttl ->
  Weather.upstream st1 = Weather.upstream st ++ [(la, lo)]
  /\ (forall la2 lo2, (la2 == la)%Q -> (lo2 == lo)%Q ->
        Weather.get_current key f2 now2 now2' (Some la2) (Some lo2) st1
        = (Weather.Ok w true loc, st1))
  /\ (forall la2 lo2, ~ ((la2 == la)%Q /\ (lo2 == lo)%Q) ->
        findOne (Weather.cacheKey la2 lo2 now2) (Weather.cache st1)
        = findOne (Weather.cacheKey la2 lo2 now2) (Weather.cache st)).
Proof.
  unfold Weather.get_current at 1.
  destruct (findOne (Weather.cacheKey la lo now) (Weather.cache st)) as [e|] eqn:Hf;
    [discriminate|].
  destruct (Weather.configured key); [|discriminate]. cbn [negb].
  destruct (f1 la lo) as [d|e]; [|destruct (on_error_cases e)
    as [(_ & ->)|[(_ & _ & ->)|(_ & _ & ->)]]; discriminate].
  destruct (Weather.weather d) as [|c rest]; [discriminate|].
  destruct (Weather.validate _); [|discriminate].
  intros [= <- <- <-] Hle Hlt.
  assert (Hold : forall la2 lo2 x, In x (Weather.cache st) ->
            (la2 == la)%Q -> (lo2 == lo)%Q ->
            Weather.cacheKey la2 lo2 now2 x = false).
  { intros la2 lo2 x Hin Hla Hlo.
    destruct (Weather.cacheKey la2 lo2 now2 x) eqn:E; [|reflexivity].
    apply cacheKey_true in E as (E1 & E2 & E3).
    assert (Hx : Weather.cacheKey la lo now x = true).
    { apply cacheKey_true. repeat split.
      - rewrite E1. assumption.
      - rewrite E2. assumption.
      - lia. }
    unfold findOne in Hf. rewrite (find_none _ _ Hf x Hin) in Hx. discriminate. }
  split; [reflexivity|]. split.
  - intros la2 lo2 Hla Hlo. unfold Weather.get_current. cbn [Weather.cache].
    rewrite findOne_first with (l2 := []).
    + reflexivity.
    + apply Forall_forall. intros x Hin. apply (Hold la2 lo2 x Hin Hla Hlo).
    + apply cacheKey_true. cbn. repeat split.
      * symmetry. assumption.
      * symmetry. assumption.
      * assumption.
  - intros la2 lo2 Hne. cbn [Weather.cache]. apply findOne_app_miss.
    destruct (Weather.cacheKey la2 lo2 now2 _) eqn:E; [|reflexivity].
    apply cacheKey_true in E as (E1 & E2 & _). cbn in E1, E2.
    exfalso. apply Hne. split; symmetry; assumption.
Qed.

(** Five minutes after the fetch the same coordinates, written with one
    more digit, hit the stored entry although the provider is down. *)
Lemma cache_key_exact_witness :
  let la := (40712 # 1000)%Q in
  let lo := (-74006 # 1000)%Q in
  let st0 := Weather.mkState [] [] in
  let r1 := Weather.get_current (Some "k") provider_up 0 (same_ms 150)
              (Some la) (Some lo) st0 in
  Weather.upstream (snd r1) = [(la, lo)]
  /\ Weather.get_current (Some "k") provider_down 300000 (same_ms 300100)
       (Some (407120 # 10000)%Q) (Some lo) (snd r1)
     = (Weather.Ok (Weather.process sample_payload clear_sky 150) true
                   (Weather.mkLocation "New York" "US" la lo),
        snd r1).
Proof.
  intros la lo st0 r1.
  destruct (cache_key_exact (Some "k") provider_up provider_down 0 300000
              (same_ms 150) (same_ms 300100) la lo st0 (snd r1)
              (Weather.process sample_payload clear_sky 150)
              (Weather.mkLocation "New York" "US" la lo)
              eq_refl ltac:(lia) ltac:(reflexivity)) as (H1 & H2 & _).
  split; [exact H1|].
  apply H2; reflexivity.
Defined.

(** C10 as stated fails.  The coordinates (40.712, -74.006) and
    (40.714, -74.006) round to the same two-decimal key; the second
    request, one second after the first has fetched and stored its entry,
    is a miss: it is answered with [cached = false] and the provider has
    been called twice. *)
Lemma nearby_coordinates_miss :
  let la1 := (40712 # 1000)%Q in
  let la2 := (40714 # 1000)%Q in
  let lo := (-74006 # 1000)%Q in
  let r1 := Weather.get_current (Some "k") provider_up 0 (same_ms 150)
              (Some la1) (Some lo) (Weather.mkState [] []) in
  let r2 := Weather.get_current (Some "k") provider_up 1000 (same_ms 1150)
              (Some la2) (Some lo) (snd r1) in
  spec_locationKey la1 lo = spec_locationKey la2 lo
  /\ fst r1 = Weather.Ok (Weather.process sample_payload clear_sky 150) false
                (Weather.mkLocation "New York" "US" la1 lo)
  /\ fst r2 = Weather.Ok (Weather.process sample_payload clear_sky 1150) false
                (Weather.mkLocation "New York" "US" la2 lo)
  /\ Weather.upstream (snd r2) = [(la1, lo); (la2, lo)].
Proof. repeat split. Qed.

(* ================================================================== *)
(** ** Further properties of the timer engine *)

Lemma findOneAndUpdate_filter_other {A : Type} (p q : A -> bool) (f : A -> A)
    (l : list A) :
  (forall x, p x = true -> q x = false /\ q (f x) = false) ->
  filter q (snd (findOneAndUpdate p f l)) = filter q l.
Proof.
  intros H. induction l as [|x r IH]; simpl; [reflexivity|].
  destruct (p x) eqn:Hp; simpl.
  - destruct (H x Hp) as [-> ->]. reflexivity.
  - destruct (findOneAndUpdate p f r) as [o r']. simpl in *.
    rewrite IH. reflexivity.
Qed.

Lemma update_of_userId (e : event) (f : ClockSession -> ClockSession)
    (s : ClockSession) :
  update_of e = Some f -> userId (f s) = userId s.
Proof.
  unfold update_of. destruct (ev_req e); intros [= <-]; reflexivity.
Qed.

Lemma step_other_users (e : event) (db : Db) (v : nat) :
  v <> ev_user e ->
  filter (fun s => Nat.eqb (userId s) v) (sessions (snd (handle e db)))
  = filter (fun s => Nat.eqb (userId s) v) (sessions db).
Proof.
  intros Hv.
  destruct (handle_sessions e db) as [(b & d & _ & _ & ->)|[(f & Hf & ->)| ->]].
  - rewrite filter_app_single. cbn [userId new_session].
    destruct (Nat.eqb_spec (ev_user e) v) as [E|_]; [congruence|].
    apply app_nil_r.
  - apply findOneAndUpdate_filter_other. intros x Hx.
    apply active_filter_endTime in Hx as [Hu _].
    rewrite (update_of_userId e f x Hf), Hu.
    destruct (Nat.eqb_spec (ev_user e) v) as [E|_]; [congruence|]. auto.
  - reflexivity.
Qed.

(** Users are isolated.  Whatever requests other users send, the sessions
    of a user stay exactly as they are, in the same order. *)
Theorem other_users_untouched (tr : list event) (db : Db) (v : nat) :
  Forall (fun e => v <> ev_user e) tr ->
  filter (fun s => Nat.eqb (userId s) v) (sessions (run db tr))
  = filter (fun s => Nat.eqb (userId s) v) (sessions db).
Proof.
  revert db. induction tr as [|e r IH]; simpl; intros db H; [reflexivity|].
  inversion H; subst. rewrite IH by assumption.
  apply step_other_users. assumption.
Qed.

(** User 8 works while user 7 has a paused session: the session of user 7
    is the one it was. *)
Lemma other_users_untouched_witness :
  let db := run (empty_store [])
              [mkEvent 7 0 (ReqStart (mkStart (Some work) (Some 1500) None None));
               mkEvent 7 1000 (ReqPause (Some 5))] in
  let tr := [mkEvent 8 2000 (ReqStart (mkStart None (Some 600) None None));
             mkEvent 8 3000 (ReqPause (Some 900));
             mkEvent 8 4000 (ReqComplete None None)] in
  filter (fun s => Nat.eqb (userId s) 7) (sessions (run db tr))
  = filter (fun s => Nat.eqb (userId s) 7) (sessions db).
Proof.
  intros db tr. apply (other_users_untouched tr db 7).
  subst tr. repeat (apply Forall_cons; [cbn; lia|]). apply Forall_nil.
Defined.

Lemma findOneAndUpdate_nth_other {A : Type} (p : A -> bool) (f : A -> A)
    (l : list A) (i : nat) (s : A) :
  nth_error l i = Some s -> p s = false ->
  nth_error (snd (findOneAndUpdate p f l)) i = Some s.
Proof.
  revert i. induction l as [|x r IH]; intros i Hi Hp; [destruct i; discriminate|].
  simpl. destruct (p x) eqn:Hx; simpl.
  - destruct i; simpl in *; [|assumption]. congruence.
  - destruct (findOneAndUpdate p f r) as [o r']. simpl in *.
    destruct i; simpl in *; auto.
Qed.

Lemma step_ended_frozen (e : event) (db : Db) (i : nat) (s : ClockSession) :
  nth_error (sessions db) i = Some s -> endTime s <> None ->
  nth_error (sessions (snd (handle e db))) i = Some s.
Proof.
  intros Hi He.
  destruct (handle_sessions e db) as [(b & d & _ & _ & ->)|[(f & Hf & ->)| ->]].
  - rewrite nth_error_app1; [assumption|].
    apply nth_error_Some. congruence.
  - apply findOneAndUpdate_nth_other; [assumption|].
    destruct (active_filter (ev_user e) s) eqn:Ha; [|reflexivity].
    apply active_filter_endTime in Ha as [_ Hn]. contradiction.
  - assumption.
Qed.

(** A session that has ended is frozen.  Once a session has an [endTime],
    no later start, pause, complete or stop request, of any user, changes
    any of its fields or its place in the collection. *)
Theorem ended_session_frozen (tr : list event) (db : Db) (i : nat)
    (s : ClockSession) :
  nth_error (sessions db) i = Some s -> endTime s <> None ->
  nth_error (sessions (run db tr)) i = Some s.
Proof.
  revert db. induction tr as [|e r IH]; simpl; intros db Hi He; [assumption|].
  apply IH; [|assumption]. apply step_ended_frozen; assumption.
Qed.

(** A stopped session survives a new start, pauses and a completion of
    the same user. *)
Lemma ended_session_frozen_witness :
  let db := run (empty_store [])
              [mkEvent 7 0 (ReqStart (mkStart (Some work) (Some 1500) None None));
               mkEvent 7 1000 (ReqStop (Some "phone"))] in
  let s := mkSession 0 7 pomodoro work 0 (Some 1000) 1500 None false true 0
             (mkData (Some "") None (Some "none")) None in
  let tr := [mkEvent 7 2000 (ReqStart (mkStart None (Some 600) None None));
             mkEvent 7 3000 (ReqPause (Some 900));
             mkEvent 7 4000 (ReqComplete (Some 5) (Some "done"))] in
  nth_error (sessions (run db tr)) 0 = Some s.
Proof.
  intros db s tr. apply (ended_session_frozen tr db 0 s).
  - reflexivity.
  - discriminate.
Defined.

Lemma update_sessions (e : event) (f : ClockSession -> ClockSession) (db : Db) :
  update_of e = Some f ->
  sessions (snd (handle e db))
  = snd (findOneAndUpdate (active_filter (ev_user e)) f (sessions db)).
Proof.
  destruct e as [u now r]. unfold update_of, handle. simpl.
  destruct r as [b|p|pr n|rs]; intros [= <-].
  - unfold pause.
    pose proof (findOneAndUpdate_fst_none (active_filter u)
      (pause_update match p with Some n => n | None => 0 end) (sessions db)) as Hn.
    destruct (findOneAndUpdate _ _ _) as [[s|] l]; simpl in *; [reflexivity|].
    symmetry. apply Hn. reflexivity.
  - apply complete_sessions.
  - unfold stop.
    pose proof (findOneAndUpdate_fst_none (active_filter u)
      (stop_update now match rs with Some x => x | None => "user_cancelled" end)
      (sessions db)) as Hn.
    destruct (findOneAndUpdate _ _ _) as [[s|] l]; simpl in *; [reflexivity|].
    symmetry. apply Hn. reflexivity.
Qed.

Lemma start_fresh (u : nat) (now : Z) (b : start_body) (d : Z) (db : Db) :
  sb_duration b = Some d -> 60 <= d <= 3600 ->
  findOne (active_filter u) (sessions db) = None ->
  start u now b db
  = (Started (next_id db)
             (match sb_type b with Some t => t | None => work end)
             now d (Some (str_or (sb_task b) "")),
     mkDb (sessions db ++ [new_session (next_id db) u now b d]) (users db)
          (S (next_id db))).
Proof.
  intros Hd Hr Hf. unfold start. rewrite Hd.
  destruct (invalid_duration (Some d)) eqn:E.
  - apply invalid_duration_range in E. lia.
  - rewrite Hf. reflexivity.
Qed.

Lemma findOne_app_none {A : Type} (p : A -> bool) (l : list A) (x : A) :
  findOne p l = None -> p x = true -> findOne p (l ++ [x]) = Some x.
Proof.
  intros Hn Hx. apply findOne_first; [|assumption].
  apply Forall_forall. intros y Hy. apply (find_none _ _ Hn y Hy).
Qed.

(** After a session has been completed or stopped the engine is idle for
    that user.  On every store reached from the empty one, once a
    complete or stop request has been handled, a pause, a complete and a
    stop of the same user all answer [NoActiveSession] and change
    nothing, [current] reports no session, and a start with a duration
    within 60..3600 is accepted. *)
Theorem idle_after_termination (us : list User) (tr : list event) (e : event) :
  match ev_req e with
  | ReqComplete _ _ | ReqStop _ => True
  | _ => False
  end ->
  let u := ev_user e in
  let db' := snd (handle e (run (empty_store us) tr)) in
  (forall p, pause u p db' = (NoActiveSession, db'))
  /\ (forall now p n, complete u now p n db' = (NoActiveSession, db'))
  /\ (forall now r, stop u now r db' = (NoActiveSession, db'))
  /\ (forall now, current u now db' = CurrentNone)
  /\ (forall now b d, sb_duration b = Some d -> 60 <= d <= 3600 ->
        fst (start u now b db')
        = Started (next_id db')
                  (match sb_type b with Some t => t | None => work end)
                  now d (Some (str_or (sb_task b) ""))).
Proof.
  intros Hterm u db'.
  assert (Hidle : findOne (active_filter u) (sessions db') = None).
  { subst db' u. destruct (update_of e) as [f|] eqn:Hf.
    - rewrite (update_sessions e f _ Hf). apply terminated_no_active.
      + apply (run_one_active tr (empty_store us) (empty_store_one_active us)).
      + intros s. unfold update_of in Hf.
        destruct (ev_req e); try contradiction; injection Hf as <-;
          unfold active_filter; simpl; rewrite andb_false_r; reflexivity.
    - unfold update_of in Hf. destruct (ev_req e); try contradiction; discriminate. }
  repeat split.
  - intros p. unfold pause. rewrite (findOneAndUpdate_none _ _ _ Hidle). reflexivity.
  - intros now p n. unfold complete.
    rewrite (findOneAndUpdate_none _ _ _ Hidle). reflexivity.
  - intros now r. unfold stop.
    rewrite (findOneAndUpdate_none _ _ _ Hidle). reflexivity.
  - intros now. unfold current. rewrite Hidle. reflexivity.
  - intros now b d Hd Hr. rewrite (start_fresh u now b d db' Hd Hr Hidle).
    reflexivity.
Qed.

(** A session is stopped; the user can neither pause nor complete it, and
    starts the next one. *)
Lemma idle_after_termination_witness :
  let tr := [mkEvent 7 0 (ReqStart (mkStart (Some work) (Some 1500) None None))] in
  let e := mkEvent 7 1000 (ReqStop None) in
  let db' := snd (handle e (run (empty_store []) tr)) in
  pause 7 (Some 10) db' = (NoActiveSession, db')
  /\ complete 7 2000 None None db' = (NoActiveSession, db')
  /\ current 7 2000 db' = CurrentNone
  /\ fst (start 7 3000 (mkStart (Some short_break) (Some 300) None None) db')
     = Started 1 short_break 3000 300 (Some "").
Proof.
  intros tr e db'.
  destruct (idle_after_termination [] tr e I) as (H1 & H2 & _ & H4 & H5).
  split; [apply H1|]. split; [apply H2|]. split; [apply H4|].
  apply (H5 3000 (mkStart (Some short_break) (Some 300) None None) 300 eq_refl).
  lia.
Defined.

(** What has been started is what [current] shows.  After a start that
    was accepted, [current] at a later clock reading [now2] projects the
    new session: elapsed is the whole seconds since the start, nothing is
    paused, and remaining is the planned duration minus elapsed, not
    below 0. *)
Theorem start_then_current (u : nat) (now now2 : Z) (b : start_body) (d : Z)
    (db : Db) :
  sb_duration b = Some d -> 60 <= d <= 3600 ->
  findOne (active_filter u) (sessions db) = None ->
  current u now2 (snd (start u now b db))
  = CurrentSession (next_id db)
      (match sb_type b with Some t => t | None => work end)
      now d ((now2 - now) / 1000) (Z.max 0 (d - (now2 - now) / 1000))
      (Some (str_or (sb_task b) "")) (Some (str_or (sb_ambientSound b) "none")) 0.
Proof.
  intros Hd Hr Hf. rewrite (start_fresh u now b d db Hd Hr Hf). cbn [snd].
  unfold current. cbn [sessions].
  rewrite (findOne_app_none _ _ (new_session (next_id db) u now b d) Hf).
  - cbn. rewrite Z.sub_0_r. reflexivity.
  - unfold active_filter. cbn. rewrite Nat.eqb_refl.
    destruct (sb_type b) as [[| | |]|]; reflexivity.
Qed.

(** Ten minutes into a 25 minute session with a task and rain. *)
Lemma start_then_current_witness :
  current 7 600000
    (snd (start 7 0 (mkStart None (Some 1500) (Some "essay") (Some "rain"))
            (empty_store [])))
  = CurrentSession 0 work 0 1500 600 900 (Some "essay") (Some "rain") 0.
Proof.
  exact (start_then_current 7 0 600000
           (mkStart None (Some 1500) (Some "essay") (Some "rain")) 1500
           (empty_store []) eq_refl ltac:(lia) eq_refl).
Defined.

(** Pause reports add up.  However many pause requests a user sends
    while a session is active, with whatever clock readings, as long as
    the reported amounts and the running total of the paused time are
    safe integers, the session stays the active one, its paused time
    grows by the sum of the reported amounts (a request without amount
    counts 0), and nothing else in it changes. *)
Theorem pauses_add_up (u : nat) (ps : list (Z * option Z)) (db : Db)
    (s : ClockSession) :
  findOne (active_filter u) (sessions db) = Some s ->
  safe_pauses (pausedTime s) ps ->
  let tr := map (fun p => mkEvent u (fst p) (ReqPause (snd p))) ps in
  let total := fold_right
                 (fun p acc => match snd p with Some d => d | None => 0 end + acc)
                 0 ps in
  exists s',
    findOne (active_filter u) (sessions (run db tr)) = Some s'
    /\ pausedTime s' = pausedTime s + total
    /\ safe_integer (pausedTime s')
    /\ (_id s', userId s', type s', subType s', startTime s', endTime s',
        plannedDuration s', actualDuration s', completed s', interrupted s',
        data s', productivity s')
       = (_id s, userId s, type s, subType s, startTime s, endTime s,
          plannedDuration s, actualDuration s, completed s, interrupted s,
          data s, productivity s).
Proof.
  revert db s. induction ps as [|[t p] r IH]; intros db s H Hsafe; cbn zeta.
  - exists s. cbn in Hsafe. simpl. rewrite Z.add_0_r.
    split; [exact H|]. split; [reflexivity|]. split; [exact Hsafe|reflexivity].
  - destruct Hsafe as (_ & _ & Hrest). cbn [snd] in Hrest.
    destruct (pause_active u p db s H) as (l1 & l2 & _ & Hp & Hnext).
    cbn [map run handle ev_req ev_user fst snd]. rewrite Hp. cbn [snd].
    destruct (IH (mkDb (l1 ++ pause_update match p with Some n => n | None => 0 end s
                           :: l2) (users db) (next_id db))
                 (pause_update match p with Some n => n | None => 0 end s)
                 Hnext Hrest)
      as (s' & H1 & H2 & Hs & H3).
    exists s'. split; [exact H1|]. split; [|split; [exact Hs|]].
    + rewrite H2. cbn. lia.
    + rewrite H3. reflexivity.
Qed.

(** Three reports, one of them without amount: 10 + 0 + 15. *)
Lemma pauses_add_up_witness :
  let db := run (empty_store [])
              [mkEvent 7 0 (ReqStart (mkStart (Some work) (Some 1500) None None))] in
  exists s',
    findOne (active_filter 7)
      (sessions (run db [mkEvent 7 1000 (ReqPause (Some 10));
                         mkEvent 7 2000 (ReqPause None);
                         mkEvent 7 3000 (ReqPause (Some 15))])) = Some s'
    /\ pausedTime s' = 25.
Proof.
  intros db.
  destruct (pauses_add_up 7 [(1000, Some 10); (2000, None); (3000, Some 15)] db
              (mkSession 0 7 pomodoro work 0 None 1500 None false false 0
                 (mkData (Some "") None (Some "none")) None) eq_refl
              ltac:(cbn; unfold safe_integer; cbn; lia))
    as (s' & H1 & H2 & _).
  exists s'. split; [exact H1|exact H2].
Defined.

(* ================================================================== *)
(** ** The save middleware of ClockSession *)

(** The save middleware writes [actualDuration] and nothing else.  It
    leaves a session without [endTime], or with a non-zero
    [actualDuration], as it is; for an ended session without one it
    stores exactly the value of the [duration] virtual; and running it
    again changes nothing more. *)
Theorem pre_save_spec (s : ClockSession) :
  pre_save (pre_save s) = pre_save s
  /\ (endTime s = None -> pre_save s = s)
  /\ (truthy (actualDuration s) = true -> pre_save s = s)
  /\ (endTime s <> None -> truthy (actualDuration s) = false ->
      actualDuration (pre_save s) = duration s)
  /\ (_id (pre_save s), userId (pre_save s), type (pre_save s),
      subType (pre_save s), startTime (pre_save s), endTime (pre_save s),
      plannedDuration (pre_save s), completed (pre_save s),
      interrupted (pre_save s), pausedTime (pre_save s), data (pre_save s),
      productivity (pre_save s))
     = (_id s, userId s, type s, subType s, startTime s, endTime s,
        plannedDuration s, completed s, interrupted s, pausedTime s, data s,
        productivity s).
Proof.
  assert (HA : forall x, endTime x = None -> pre_save x = x).
  { intros x Hx. unfold pre_save. rewrite Hx. reflexivity. }
  assert (HB : forall x, truthy (actualDuration x) = true -> pre_save x = x).
  { intros x Hx. unfold pre_save. rewrite Hx. destruct (endTime x); reflexivity. }
  assert (HC : forall x e, endTime x = Some e ->
                truthy (actualDuration x) = false ->
                pre_save x
                = set_actualDuration (Some ((e - startTime x) / 1000 - pausedTime x)) x).
  { intros x e Hx Ht. unfold pre_save. rewrite Hx, Ht. reflexivity. }
  destruct (endTime s) as [e|] eqn:He.
  - destruct (truthy (actualDuration s)) eqn:Ht.
    + rewrite !(HB s Ht). repeat split; congruence.
    + rewrite (HC s e He Ht). unfold duration. rewrite He.
      split; [|repeat split; cbn; congruence].
      set (v := (e - startTime s) / 1000 - pausedTime s).
      destruct (truthy (Some v)) eqn:Hv.
      * apply HB. exact Hv.
      * rewrite (HC _ e); [| exact He | exact Hv]. reflexivity.
  - rewrite !(HA s He). repeat split; congruence.
Qed.

(** Saving a session that ended 1500 seconds after its start with 100
    seconds paused stores 1400; a stored 1400 survives a later save even
    when the paused time has changed since. *)
Lemma pre_save_spec_witness :
  let s := mkSession 0 7 pomodoro work 0 (Some 1500000) 1500 None true false 100
             (mkData None None None) None in
  actualDuration (pre_save s) = Some 1400
  /\ pre_save (pause_update 50 (pre_save s)) = pause_update 50 (pre_save s).
Proof.
  intros s. split.
  - exact (proj1 (proj2 (proj2 (proj2 (pre_save_spec s))))
             ltac:(discriminate) eq_refl).
  - exact (proj1 (proj2 (proj2 (pre_save_spec (pause_update 50 (pre_save s)))))
             eq_refl).
Defined.

(* ================================================================== *)
(** ** Session history *)

Lemma insert_desc_perm (s : ClockSession) (l : list ClockSession) :
  Permutation (History.insert_desc s l) (s :: l).
Proof.
  induction l as [|x r IH]; simpl; [reflexivity|].
  destruct (startTime x <=? startTime s); [reflexivity|].
  rewrite IH. apply perm_swap.
Qed.

Lemma sort_desc_perm (l : list ClockSession) :
  Permutation (History.sort_desc l) l.
Proof.
  induction l as [|x r IH]; simpl; [reflexivity|].
  rewrite insert_desc_perm, IH. reflexivity.
Qed.

Lemma insert_desc_sorted (s : ClockSession) (l : list ClockSession) :
  newest_first l -> newest_first (History.insert_desc s l).
Proof.
  unfold newest_first. intros H. induction H as [|x r Hr IH Hx]; simpl.
  - constructor; constructor.
  - destruct (startTime x <=? startTime s) eqn:E.
    + apply Z.leb_le in E. constructor; [constructor; assumption|].
      constructor; [assumption|].
      eapply Forall_impl; [|exact Hx]. cbn. intros. lia.
    + apply Z.leb_gt in E. constructor; [assumption|].
      eapply Permutation_Forall; [symmetry; apply insert_desc_perm|].
      constructor; [lia|assumption].
Qed.

Lemma sort_desc_sorted (l : list ClockSession) :
  newest_first (History.sort_desc l).
Proof.
  induction l as [|x r IH]; simpl; [constructor|].
  apply insert_desc_sorted. assumption.
Qed.

Lemma newest_first_skipn (n : nat) (l : list ClockSession) :
  newest_first l -> newest_first (skipn n l).
Proof.
  unfold newest_first. revert l. induction n as [|n IH]; intros l H; [assumption|].
  destruct l as [|x r]; [constructor|]. simpl. apply IH.
  inversion H; assumption.
Qed.

Lemma newest_first_firstn (n : nat) (l : list ClockSession) :
  newest_first l -> newest_first (firstn n l).
Proof.
  unfold newest_first. revert l. induction n as [|n IH]; intros l H; [constructor|].
  destruct l as [|x r]; [constructor|]. simpl. inversion H; subst.
  constructor; [apply IH; assumption|].
  rewrite Forall_forall in *. intros y Hy. apply H3.
  rewrite <- (firstn_skipn n r). apply in_or_app. auto.
Qed.

Lemma In_firstn_skipn {A : Type} (n k : nat) (l : list A) (x : A) :
  In x (firstn n (skipn k l)) -> In x l.
Proof.
  intros H. rewrite <- (firstn_skipn k l). apply in_or_app. right.
  rewrite <- (firstn_skipn n (skipn k l)). apply in_or_app. auto.
Qed.

Lemma matches_userId (u : nat) (q : History.query) (s : ClockSession) :
  History.matches u q s = true -> userId s = u.
Proof.
  unfold History.matches. rewrite !andb_true_iff. intros [[[H _] _] _].
  apply Nat.eqb_eq. exact H.
Qed.

(** The ceiling in the page count: there is a page after [pg] exactly
    when more than [pg * lim] sessions match. *)
Lemma page_count (pg lim total : Z) :
  1 <= lim -> 0 <= total ->
  (pg < (total + lim - 1) / lim <-> pg * lim < total).
Proof.
  intros Hl Ht. split; intros H.
  - assert (H1 : lim * ((total + lim - 1) / lim) <= total + lim - 1)
      by (apply Z.mul_div_le; lia).
    nia.
  - assert (H1 : pg + 1 <= (total + lim - 1) / lim)
      by (apply Z.div_le_lower_bound; nia).
    lia.
Qed.

(** One page of the history.  For [page >= 1] and [limit >= 1] the reply
    holds the projection of at most [limit] sessions, all of the
    requesting user and all matching the filter, newest first;
    [totalSessions] is the number of matching sessions; [hasNext] is true
    exactly when more than [page * limit] sessions match, which is
    exactly when [currentPage < totalPages]; [hasPrevious] is true
    exactly from page 2 on; and the page is empty exactly when
    [(page - 1) * limit] already covers all matching sessions. *)
Theorem history_page (u : nat) (q : History.query) (db : Db)
    (items : list History.item) (pgn : History.pagination) :
  History.history u q db = Some (items, pgn) ->
  let pg := match History.page q with Some n => n | None => 1 end in
  let lim := match History.limit q with Some n => n | None => 20 end in
  let docs := History.page_docs u q pg lim db in
  let total := Z.of_nat (List.length (filter (History.matches u q) (sessions db))) in
  1 <= pg /\ 1 <= lim
  /\ items = map History.select docs
  /\ Z.of_nat (List.length items) <= lim
  /\ Forall (fun s => In s (sessions db) /\ userId s = u
                      /\ History.matches u q s = true) docs
  /\ newest_first docs
  /\ History.currentPage pgn = pg
  /\ History.totalSessions pgn = total
  /\ (History.hasNext pgn = true <-> pg * lim < total)
  /\ (History.hasNext pgn = true
      <-> History.currentPage pgn < History.totalPages pgn)
  /\ (History.hasPrevious pgn = true <-> 1 < pg)
  /\ (items = [] <-> total <= (pg - 1) * lim).
Proof.
  intros H pg lim docs total. unfold History.history in H. cbv zeta in H.
  fold pg lim in H. fold docs total in H.
  destruct ((1 <=? pg) && (1 <=? lim)) eqn:Hd; [|discriminate].
  apply andb_prop in Hd as [Hp Hl]. apply Z.leb_le in Hp, Hl.
  injection H as <- <-. cbn [History.currentPage History.totalSessions
    History.hasNext History.hasPrevious History.totalPages].
  assert (Hlen : List.length docs
                 = Nat.min (Z.to_nat lim)
                     (List.length (filter (History.matches u q) (sessions db))
                      - Z.to_nat ((pg - 1) * lim))).
  { subst docs. unfold History.page_docs.
    rewrite length_firstn, length_skipn.
    rewrite (Permutation_length (sort_desc_perm _)). reflexivity. }
  assert (Hnext : ((pg - 1) * lim + Z.of_nat (List.length docs) <? total) = true
                  <-> pg * lim < total).
  { rewrite Z.ltb_lt, Hlen. subst total. nia. }
  split; [assumption|]. split; [assumption|]. split; [reflexivity|].
  split; [rewrite length_map, Hlen; lia|].
  split.
  { apply Forall_forall. intros s Hs. subst docs. unfold History.page_docs in Hs.
    apply In_firstn_skipn in Hs.
    apply (Permutation_in _ (sort_desc_perm _)) in Hs.
    apply filter_In in Hs as [Hin Hm].
    repeat split; [assumption|apply (matches_userId u q s Hm)|assumption]. }
  split.
  { subst docs. unfold History.page_docs.
    apply newest_first_firstn, newest_first_skipn, sort_desc_sorted. }
  split; [reflexivity|]. split; [reflexivity|].
  split; [exact Hnext|].
  split.
  { rewrite Hnext. symmetry. apply page_count; subst total; lia. }
  split; [apply Z.ltb_lt|].
  split; intros H.
  - apply (f_equal (@List.length _)) in H. rewrite length_map, Hlen in H.
    cbn in H. subst total. nia.
  - assert (Hz : List.length docs = 0%nat) by (rewrite Hlen; subst total; nia).
    destruct docs; [reflexivity|discriminate].
Qed.

(** Three sessions of user 7 and one of user 8, two per page: the first
    page holds the two newest sessions of user 7 and announces a next
    page. *)
Lemma history_page_witness :
  let tr := [mkEvent 7 0 (ReqStart (mkStart (Some work) (Some 1500) None None));
             mkEvent 7 1000 (ReqStop None);
             mkEvent 8 1500 (ReqStart (mkStart (Some work) (Some 600) None None));
             mkEvent 7 2000 (ReqStart (mkStart (Some short_break) (Some 300) None None));
             mkEvent 7 3000 (ReqComplete None None);
             mkEvent 7 4000 (ReqStart (mkStart (Some work) (Some 900) None None))] in
  let db := run (empty_store []) tr in
  let q := History.mkQuery (Some 1) (Some 2) None None None in
  exists items pgn,
    History.history 7 q db = Some (items, pgn)
    /\ map History.item_startTime items = [4000; 2000]
    /\ History.totalSessions pgn = 3
    /\ (History.hasNext pgn = true <-> 1 * 2 < 3).
Proof.
  intros tr db q.
  destruct (History.history 7 q db) as [[items pgn]|] eqn:E; [|discriminate E].
  exists items, pgn. split; [reflexivity|].
  destruct (history_page 7 q db items pgn E)
    as (_ & _ & H1 & _ & _ & _ & _ & H2 & H3 & _).
  split; [|split; [exact H2|exact H3]].
  rewrite H1. reflexivity.
Defined.

Lemma firstn_skipn_add {A : Type} (a b : nat) (l : list A) :
  firstn a l ++ firstn b (skipn a l) = firstn (a + b) l.
Proof.
  revert l. induction a as [|a IH]; intros l; [reflexivity|].
  destruct l as [|x r]; simpl.
  - rewrite firstn_nil. reflexivity.
  - rewrite IH. reflexivity.
Qed.

Lemma pages_concat {A : Type} (lim n : nat) (l : list A) :
  List.concat (map (fun k => firstn lim (skipn (k * lim) l)) (seq 0 n))
  = firstn (n * lim) l.
Proof.
  induction n as [|n IH]; [reflexivity|].
  rewrite seq_S, map_app, concat_app, IH. cbn [map List.concat Nat.add].
  rewrite app_nil_r, firstn_skipn_add. f_equal. lia.
Qed.

(** The pages cover the history.  For [limit >= 1], going through the
    pages 1 to [totalPages] and putting their sessions one after the
    other gives every matching session exactly once, newest first: no
    session is skipped or repeated between pages.  (Stated for sessions
    with distinct start times, where the order of the result does not
    depend on how the sort treats equal keys.) *)
Theorem history_pages_cover (u : nat) (q : History.query) (lim : Z) (db : Db) :
  1 <= lim ->
  NoDup (map startTime (filter (History.matches u q) (sessions db))) ->
  let all := History.sort_desc (filter (History.matches u q) (sessions db)) in
  let total := Z.of_nat (List.length (filter (History.matches u q) (sessions db))) in
  let pages := Z.to_nat ((total + lim - 1) / lim) in
  List.concat (map (fun k => History.page_docs u q (Z.of_nat (S k)) lim db)
              (seq 0 pages))
  = all
  /\ Permutation all (filter (History.matches u q) (sessions db))
  /\ newest_first all.
Proof.
  intros Hl _ all total pages. split; [|split].
  - unfold History.page_docs. fold all.
    rewrite (map_ext _ (fun k => firstn (Z.to_nat lim)
                                   (skipn (k * Z.to_nat lim) all))).
    + rewrite pages_concat. apply firstn_all2.
      subst all. rewrite (Permutation_length (sort_desc_perm _)).
      assert (H1 : total <= lim * ((total + lim - 1) / lim)).
      { pose proof (Z.mul_succ_div_gt (total + lim - 1) lim ltac:(lia)). lia. }
      assert (H0 : 0 <= (total + lim - 1) / lim)
        by (apply Z.div_pos; subst total; lia).
      subst pages total. nia.
    + intros k. do 2 f_equal.
      replace (Z.of_nat (S k) - 1) with (Z.of_nat k) by lia.
      rewrite Z2Nat.inj_mul by lia. rewrite Nat2Z.id. reflexivity.
  - apply sort_desc_perm.
  - apply sort_desc_sorted.
Qed.

(** Five sessions, two per page: three pages, and together they are the
    five sessions from the newest to the oldest. *)
Lemma history_pages_cover_witness :
  let tr := [mkEvent 7 0 (ReqStart (mkStart None (Some 600) None None));
             mkEvent 7 1000 (ReqStop None);
             mkEvent 7 2000 (ReqStart (mkStart None (Some 600) None None));
             mkEvent 7 3000 (ReqStop None);
             mkEvent 7 4000 (ReqStart (mkStart None (Some 600) None None));
             mkEvent 7 5000 (ReqStop None);
             mkEvent 7 6000 (ReqStart (mkStart None (Some 600) None None));
             mkEvent 7 7000 (ReqStop None);
             mkEvent 7 8000 (ReqStart (mkStart None (Some 600) None None))] in
  let db := run (empty_store []) tr in
  let q := History.mkQuery None None None None None in
  map startTime
      (List.concat (map (fun k => History.page_docs 7 q (Z.of_nat (S k)) 2 db)
                   (seq 0 3)))
  = [8000; 6000; 4000; 2000; 0].
Proof.
  intros tr db q.
  assert (Hd : NoDup (map startTime (filter (History.matches 7 q) (sessions db)))).
  { cbv. repeat (constructor; [intros H; repeat (destruct H as [H|H];
      [discriminate H|]); exact H|]). constructor. }
  destruct (history_pages_cover 7 q 2 db ltac:(lia) Hd) as [H _].
  cbn zeta in H.
  change (Z.to_nat ((Z.of_nat (List.length (filter (History.matches 7 q)
            (sessions db))) + 2 - 1) / 2)) with 3%nat in H.
  rewrite H. reflexivity.
Defined.

(** The type filter knows three kinds only.  With [type] one of 'work',
    'short_break' and 'long_break', every session of the reply is of that
    kind.  With [type=custom] the request is answered exactly like a
    request without [type]: sessions of every kind are returned and
    counted. *)
Theorem history_type_filter (u : nat) (pg lim from to : option Z) (db : Db) :
  (forall t items pgn,
      t <> custom ->
      History.history u (History.mkQuery pg lim (Some t) from to) db
      = Some (items, pgn) ->
      Forall (fun it => History.item_subType it = t) items)
  /\ History.history u (History.mkQuery pg lim (Some custom) from to) db
     = History.history u (History.mkQuery pg lim None from to) db.
Proof.
  split; [|reflexivity].
  intros t items pgn Ht H. unfold History.history in H.
  destruct (_ && _); [|discriminate]. injection H as <- _.
  apply Forall_forall. intros it Hit. apply in_map_iff in Hit as (s & <- & Hs).
  unfold History.page_docs in Hs. apply In_firstn_skipn in Hs.
  apply (Permutation_in _ (sort_desc_perm _)) in Hs.
  apply filter_In in Hs as [_ Hm]. unfold History.matches in Hm.
  cbn [History.qtype] in Hm. rewrite !andb_true_iff in Hm.
  destruct Hm as [[[_ Hm] _] _]. cbn [History.select History.item_subType].
  destruct t, (subType s); try reflexivity; try discriminate Hm;
    contradiction Ht; reflexivity.
Qed.

(** A work session and a break: the filter on 'work' returns the work
    session only. *)
Lemma history_type_filter_witness :
  let tr := [mkEvent 7 0 (ReqStart (mkStart (Some work) (Some 1500) None None));
             mkEvent 7 1000 (ReqStop None);
             mkEvent 7 2000 (ReqStart (mkStart (Some long_break) (Some 900) None None))] in
  let db := run (empty_store []) tr in
  exists items pgn,
    History.history 7 (History.mkQuery None None (Some work) None None) db
    = Some (items, pgn)
    /\ List.length items = 1%nat
    /\ Forall (fun it => History.item_subType it = work) items.
Proof.
  intros tr db.
  destruct (History.history 7 (History.mkQuery None None (Some work) None None) db)
    as [[items pgn]|] eqn:E; [|discriminate E].
  exists items, pgn. split; [reflexivity|]. split.
  - injection E as <- _. reflexivity.
  - exact (proj1 (history_type_filter 7 None None None None db) work items pgn
             ltac:(discriminate) E).
Defined.

(* ================================================================== *)
(** ** User statistics and account deletion *)

Lemma aggregate_eq (u : nat) (since : option Z) (l : list ClockSession) :
  Account.aggregate u since l
  = (Z.of_nat (List.length (filter (Account.completed_since u since) l)),
     Account.sum_actualDuration (filter (Account.completed_since u since) l)).
Proof.
  unfold Account.aggregate.
  destruct (filter (Account.completed_since u since) l); reflexivity.
Qed.

Lemma filter_length_le {A : Type} (p q : A -> bool) (l : list A) :
  (forall x, p x = true -> q x = true) ->
  (List.length (filter p l) <= List.length (filter q l))%nat.
Proof.
  intros H. induction l as [|x r IH]; simpl; [lia|].
  destruct (p x) eqn:Hp.
  - rewrite (H x Hp). simpl. lia.
  - destruct (q x); simpl; lia.
Qed.

Lemma sum_actualDuration_none (l : list ClockSession) :
  Forall (fun s => actualDuration s = None) l ->
  Account.sum_actualDuration l = 0.
Proof.
  intros H. induction H as [|s r Hs _ IH]; simpl; [reflexivity|].
  rewrite Hs, IH. reflexivity.
Qed.

(** What GET /user/stats counts.  The total is the number of sessions of
    the user with [completed] set, so sessions that were stopped or are
    still running are not counted; and when the week starts no later
    than the day, today's count is at most this week's, which is at most
    the total. *)
Theorem stats_counts (u : nat) (startOfDay startOfWeek : Z) (db : Db)
    (st : user_stats) (total today week : Z * Z) :
  Account.get_stats u startOfDay startOfWeek db
  = Account.Stats st total today week ->
  startOfWeek <= startOfDay ->
  fst total
  = Z.of_nat (List.length
                (filter (fun s => Nat.eqb (userId s) u && completed s)
                        (sessions db)))
  /\ 0 <= fst today <= fst week
  /\ fst week <= fst total
  /\ (exists x, In x (users db) /\ user_id x = u /\ stats x = st).
Proof.
  unfold Account.get_stats.
  destruct (findOne _ (users db)) as [x|] eqn:Hx; [|discriminate].
  intros [= <- <- <- <-] Hw. rewrite !aggregate_eq. cbn [fst].
  split; [|split; [|split]].
  - do 2 f_equal. apply filter_ext. intros s.
    unfold Account.completed_since. apply andb_true_r.
  - split; [lia|]. apply Nat2Z.inj_le, filter_length_le. intros s.
    unfold Account.completed_since. rewrite !andb_true_iff, !Z.leb_le.
    intros [H1 H2]. split; [assumption|lia].
  - apply Nat2Z.inj_le, filter_length_le. intros s.
    unfold Account.completed_since. rewrite !andb_true_iff. tauto.
  - unfold findOne in Hx. apply find_some in Hx as [Hin Hid].
    apply Nat.eqb_eq in Hid. eauto.
Qed.

(** One completed, one stopped and one running session: the total is 1. *)
Lemma stats_counts_witness :
  let tr := [mkEvent 7 0 (ReqStart (mkStart None (Some 600) None None));
             mkEvent 7 1000 (ReqComplete None None);
             mkEvent 7 2000 (ReqStart (mkStart None (Some 600) None None));
             mkEvent 7 3000 (ReqStop None);
             mkEvent 7 4000 (ReqStart (mkStart None (Some 600) None None))] in
  let db := run (empty_store [mkUser 7 default_stats]) tr in
  exists st total today week,
    Account.get_stats 7 500 0 db = Account.Stats st total today week
    /\ fst total = 1 /\ 0 <= fst today <= fst week.
Proof.
  intros tr db.
  destruct (Account.get_stats 7 500 0 db) as [st total today week| |] eqn:E;
    try discriminate E.
  exists st, total, today, week. split; [reflexivity|].
  destruct (stats_counts 7 500 0 db st total today week E ltac:(lia))
    as (H1 & H2 & _).
  split; [rewrite H1; reflexivity|exact H2].
Defined.

(** The statistics page after any use of the timer.  Whatever start,
    pause, complete and stop requests were handled since the store had
    no session, GET /user/stats shows the counters the user had then, and
    every aggregated focus time is 0: no session stored through these
    routes carries an [actualDuration]. *)
Theorem stats_after_engine (us : list User) (tr : list event) (u : nat)
    (startOfDay startOfWeek : Z) (st : user_stats) (total today week : Z * Z) :
  Account.get_stats u startOfDay startOfWeek (run (empty_store us) tr)
  = Account.Stats st total today week ->
  (exists x, In x us /\ user_id x = u /\ stats x = st)
  /\ snd total = 0 /\ snd today = 0 /\ snd week = 0.
Proof.
  unfold Account.get_stats. rewrite run_users_unchanged.
  destruct (findOne _ us) as [x|] eqn:Hx; [|discriminate].
  assert (Hno : forall since,
             Account.sum_actualDuration
               (filter (Account.completed_since u since)
                       (sessions (run (empty_store us) tr))) = 0).
  { intros since. apply sum_actualDuration_none.
    assert (H : no_actualDuration (run (empty_store us) tr))
      by (apply run_no_actualDuration; constructor).
    unfold no_actualDuration in H. rewrite Forall_forall in *.
    intros s Hs. apply filter_In in Hs as [Hs _]. auto. }
  rewrite !aggregate_eq. intros [= <- <- <- <-]. cbn [snd]. rewrite !Hno.
  split; [|auto]. unfold findOne in Hx. apply find_some in Hx as [Hin Hid].
  apply Nat.eqb_eq in Hid. eauto.
Qed.

(** Two work sessions completed after 25 minutes each: the statistics
    page shows no focus time and the default counters. *)
Lemma stats_after_engine_witness :
  let us := [mkUser 7 default_stats] in
  let tr := [mkEvent 7 0 (ReqStart (mkStart (Some work) (Some 1500) None None));
             mkEvent 7 1500000 (ReqComplete (Some 5) None);
             mkEvent 7 1600000 (ReqStart (mkStart (Some work) (Some 1500) None None));
             mkEvent 7 3100000 (ReqComplete (Some 4) None)] in
  exists st total today week,
    Account.get_stats 7 0 0 (run (empty_store us) tr)
    = Account.Stats st total today week
    /\ st = default_stats /\ fst total = 2 /\ snd total = 0.
Proof.
  intros us tr.
  destruct (Account.get_stats 7 0 0 (run (empty_store us) tr))
    as [st total today week| |] eqn:E; try discriminate E.
  exists st, total, today, week. split; [reflexivity|].
  destruct (stats_after_engine us tr 7 0 0 st total today week E)
    as (_ & H2 & _).
  split; [|split; [|exact H2]].
  - injection E as <- _ _ _. reflexivity.
  - injection E as _ <- _ _. reflexivity.
Defined.

Lemma findOneAndDelete_spec {A : Type} (p : A -> bool) (l : list A) :
  match findOne p l with
  | None => Account.findOneAndDelete p l = (None, l)
  | Some x =>
      exists l1 l2, l = l1 ++ x :: l2
                    /\ Forall (fun y => p y = false) l1
                    /\ p x = true
                    /\ Account.findOneAndDelete p l = (Some x, l1 ++ l2)
  end.
Proof.
  unfold findOne. induction l as [|y r IH]; simpl; [reflexivity|].
  destruct (p y) eqn:Hy.
  - exists [], r. simpl. auto.
  - destruct (find p r) as [x|].
    + destruct IH as (l1 & l2 & -> & H1 & H2 & ->).
      exists (y :: l1), l2. simpl. auto.
    + rewrite IH. reflexivity.
Qed.

Lemma filter_filter_length {A : Type} (p q : A -> bool) (l : list A) :
  (List.length (filter p (filter q l)) <= List.length (filter p l))%nat.
Proof.
  induction l as [|x r IH]; simpl; [lia|].
  destruct (q x); simpl; destruct (p x); simpl; lia.
Qed.

(** DELETE /user/account.  Afterwards no session of the user is left,
    also when the reply is 404 because the user record did not exist;
    the sessions of every other user are the ones they were, in the same
    order; at most one session per user is active if that held before;
    the reply is [Deleted] exactly when a user record with the id
    existed, and then one record is gone; with distinct ids no record of
    the user is left and the other records stay. *)
Theorem delete_account_spec (u : nat) (db : Db) :
  let r := Account.delete_account u db in
  (forall s, In s (sessions (snd r)) -> userId s <> u)
  /\ (forall v, v <> u ->
        filter (fun s => Nat.eqb (userId s) v) (sessions (snd r))
        = filter (fun s => Nat.eqb (userId s) v) (sessions db))
  /\ (one_active db -> one_active (snd r))
  /\ (fst r = Account.Deleted <-> exists x, In x (users db) /\ user_id x = u)
  /\ (fst r = Account.Deleted ->
        S (List.length (users (snd r))) = List.length (users db))
  /\ (fst r <> Account.Deleted ->
        fst r = Account.Failure 404 "User not found"
        /\ users (snd r) = users db)
  /\ (NoDup (map user_id (users db)) ->
        forall x, In x (users (snd r)) <-> In x (users db) /\ user_id x <> u).
Proof.
  intros r. subst r. unfold Account.delete_account.
  pose proof (findOneAndDelete_spec (fun x => Nat.eqb (user_id x) u) (users db))
    as Hdel.
  assert (Hother : forall v, v <> u ->
            filter (fun s => Nat.eqb (userId s) v)
                   (filter (fun s => negb (Nat.eqb (userId s) u)) (sessions db))
            = filter (fun s => Nat.eqb (userId s) v) (sessions db)).
  { intros v Hv. induction (sessions db) as [|s l IH]; [reflexivity|]. simpl.
    destruct (Nat.eqb_spec (userId s) u) as [E|E]; simpl.
    - destruct (Nat.eqb_spec (userId s) v) as [E'|_]; [congruence|exact IH].
    - rewrite IH. reflexivity. }
  assert (Hactive : one_active db ->
            forall us' v, (List.length (active_sessions v
              (mkDb (filter (fun s => negb (Nat.eqb (userId s) u)) (sessions db))
                    us' (next_id db))) <= 1)%nat).
  { intros Hinv us' v. specialize (Hinv v). unfold active_sessions in *.
    cbn [sessions]. eapply Nat.le_trans; [|exact Hinv].
    apply filter_filter_length. }
  destruct (findOne _ (users db)) as [x|] eqn:Hx.
  - destruct Hdel as (l1 & l2 & Hl & H1 & H2 & ->). cbn [fst snd sessions users].
    apply Nat.eqb_eq in H2.
    split; [|split; [|split; [|split; [|split; [|split]]]]].
    + intros s Hs. apply filter_In in Hs as [_ Hs].
      apply negb_true_iff, Nat.eqb_neq in Hs. exact Hs.
    + exact Hother.
    + intros Hinv v. apply (Hactive Hinv).
    + split; [|reflexivity]. intros _. exists x. split; [|exact H2].
      rewrite Hl. apply in_or_app. right. left. reflexivity.
    + intros _. rewrite Hl, !length_app. simpl. lia.
    + intros H. contradiction H. reflexivity.
    + intros Hnd y. rewrite Hl in *. rewrite !in_app_iff. cbn [In].
      rewrite map_app in Hnd. cbn [map] in Hnd.
      apply NoDup_remove_2 in Hnd. rewrite <- map_app in Hnd.
      split.
      * intros Hy. split; [tauto|]. intros E. apply Hnd. rewrite H2, <- E.
        apply in_map, in_or_app. exact Hy.
      * intros [[Hy|[Hy|Hy]] Hne]; [auto| |auto]. subst y. contradiction.
  - rewrite Hdel. cbn [fst snd sessions users].
    split; [|split; [|split; [|split; [|split; [|split]]]]].
    + intros s Hs. apply filter_In in Hs as [_ Hs].
      apply negb_true_iff, Nat.eqb_neq in Hs. exact Hs.
    + exact Hother.
    + intros Hinv v. apply (Hactive Hinv).
    + split; [discriminate|]. intros (y & Hy & Hid).
      unfold findOne in Hx. apply (find_none _ _ Hx) in Hy.
      apply Nat.eqb_neq in Hy. contradiction.
    + discriminate.
    + auto.
    + intros _ y. split; [|tauto]. intros Hy. split; [exact Hy|].
      unfold findOne in Hx. apply (find_none _ _ Hx) in Hy.
      apply Nat.eqb_neq in Hy. exact Hy.
Qed.

(** User 7 deletes the account while user 8 has a running session. *)
Lemma delete_account_spec_witness :
  let tr := [mkEvent 7 0 (ReqStart (mkStart None (Some 600) None None));
             mkEvent 8 1000 (ReqStart (mkStart None (Some 900) None None))] in
  let db := run (empty_store [mkUser 7 default_stats; mkUser 8 default_stats]) tr in
  let r := Account.delete_account 7 db in
  fst r = Account.Deleted
  /\ filter (fun s => Nat.eqb (userId s) 8) (sessions (snd r))
     = filter (fun s => Nat.eqb (userId s) 8) (sessions db)
  /\ one_active (snd r)
  /\ (In (mkUser 8 default_stats) (users (snd r))
      <-> In (mkUser 8 default_stats) (users db) /\ 8%nat <> 7%nat).
Proof.
  intros tr db r.
  destruct (delete_account_spec 7 db) as (_ & H2 & H3 & H4 & _ & _ & H7).
  split; [|split; [|split]].
  - apply H4. exists (mkUser 7 default_stats). split; [left|]; reflexivity.
  - apply H2. discriminate.
  - apply H3. apply run_one_active, empty_store_one_active.
  - apply (H7 ltac:(repeat constructor; cbn; intuition discriminate)
              (mkUser 8 default_stats)).
Defined.

(* ================================================================== *)
(** ** Authentication middleware *)

Lemma split_space_cons (s : string) :
  exists h t, Auth.split_space s = h :: t.
Proof.
  induction s as [|c r IH]; simpl; [eauto|].
  destruct (Ascii.eqb c Ascii.Space); [eauto|].
  destruct IH as (h & t & ->). eauto.
Qed.

Lemma split_space_word (w : string) :
  no_space w = true -> Auth.split_space w = [w].
Proof.
  induction w as [|c r IH]; simpl; [reflexivity|].
  destruct (Ascii.eqb c Ascii.Space); [discriminate|]. simpl.
  intros H. rewrite (IH H). reflexivity.
Qed.

Lemma split_space_app (w r : string) :
  no_space w = true ->
  Auth.split_space (w ++ String Ascii.Space r)%string = w :: Auth.split_space r.
Proof.
  induction w as [|c w' IH]; simpl.
  - reflexivity.
  - destruct (Ascii.eqb c Ascii.Space); [discriminate|]. simpl.
    intros H. rewrite (IH H). reflexivity.
Qed.

(** Reading the token from the Authorization header.  The token is the
    second of the parts separated by single spaces.  A header of one word
    carries no token; the first word is not looked at, so any scheme word
    in front of the token does what 'Bearer' does; what follows a further
    space is ignored; and two spaces after the first word leave an empty
    second part, which counts as no token. *)
Theorem token_of_spec (w tok rest : string) :
  no_space w = true -> no_space tok = true -> tok <> "" ->
  Auth.token_of (Some w) = None
  /\ Auth.token_of (Some (w ++ " " ++ tok)%string) = Some tok
  /\ Auth.token_of (Some (w ++ " " ++ tok)%string)
     = Auth.token_of (Some ("Bearer " ++ tok)%string)
  /\ Auth.token_of (Some (w ++ " " ++ tok ++ " " ++ rest)%string) = Some tok
  /\ Auth.token_of (Some (w ++ "  " ++ rest)%string) = None.
Proof.
  intros Hw Ht Hne.
  assert (Hne' : String.eqb tok "" = false) by (apply String.eqb_neq; exact Hne).
  assert (H2 : forall v, no_space v = true ->
             Auth.token_of (Some (v ++ " " ++ tok)%string) = Some tok).
  { intros v Hv. unfold Auth.token_of.
    change (v ++ " " ++ tok)%string with (v ++ String Ascii.Space tok)%string.
    rewrite (split_space_app v tok Hv), (split_space_word tok Ht).
    cbn [nth_error]. rewrite Hne'. reflexivity. }
  split; [|split; [|split; [|split]]].
  - unfold Auth.token_of. rewrite (split_space_word w Hw). reflexivity.
  - apply H2. exact Hw.
  - rewrite (H2 w Hw). symmetry. apply (H2 "Bearer"). reflexivity.
  - unfold Auth.token_of.
    change (w ++ " " ++ tok ++ " " ++ rest)%string
      with (w ++ String Ascii.Space (tok ++ String Ascii.Space rest))%string.
    rewrite (split_space_app w _ Hw), (split_space_app tok rest Ht).
    cbn [nth_error]. rewrite Hne'. reflexivity.
  - unfold Auth.token_of.
    change (w ++ "  " ++ rest)%string
      with (w ++ String Ascii.Space (String Ascii.Space rest))%string.
    rewrite (split_space_app w _ Hw). cbn [Auth.split_space].
    rewrite Ascii.eqb_refl. reflexivity.
Qed.

Lemma token_of_spec_witness :
  Auth.token_of (Some "abc.def.ghi") = None
  /\ Auth.token_of (Some "Basic abc.def.ghi") = Some "abc.def.ghi"
  /\ Auth.token_of (Some "Bearer abc.def.ghi extra words") = Some "abc.def.ghi"
  /\ Auth.token_of (Some "Bearer  abc.def.ghi") = None.
Proof.
  destruct (token_of_spec "abc.def.ghi" "abc.def.ghi" "" eq_refl eq_refl
              ltac:(discriminate)) as (H1 & _).
  destruct (token_of_spec "Basic" "abc.def.ghi" "" eq_refl eq_refl
              ltac:(discriminate)) as (_ & H2 & _).
  destruct (token_of_spec "Bearer" "abc.def.ghi" "extra words" eq_refl eq_refl
              ltac:(discriminate)) as (_ & _ & _ & H4 & _).
  destruct (token_of_spec "Bearer" "abc.def.ghi" "abc.def.ghi" eq_refl eq_refl
              ltac:(discriminate)) as (_ & _ & _ & _ & H5).
  repeat split; assumption.
Defined.

(** The two middlewares agree.  [optionalAuth] never rejects: it attaches
    exactly the user [authenticateToken] would attach and no user where
    [authenticateToken] rejects.  A request gets past [authenticateToken]
    only with a token that verifies and names a user who exists, and the
    identity attached is the one in the token, a guest only if the token
    says so.  A status 500 comes only from a verification error other
    than the two named ones. *)
Theorem middlewares_agree (verify : string -> Auth.jwt_result)
    (h : option string) (us : list User) :
  Auth.optionalAuth verify h us
  = Auth.Next match Auth.authenticateToken verify h us with
              | Auth.Next x => x
              | Auth.Reject _ _ _ => None
              end
  /\ (forall x, Auth.authenticateToken verify h us = Auth.Next x ->
        exists tok uid em g usr,
          Auth.token_of h = Some tok
          /\ verify tok = Auth.Decoded uid em g
          /\ In usr us /\ user_id usr = uid
          /\ x = Some (Auth.mkReqUser uid em
                         match g with Some b => b | None => false end))
  /\ (forall e m, Auth.authenticateToken verify h us = Auth.Reject 500 e m ->
        exists tok, Auth.token_of h = Some tok /\ verify tok = Auth.OtherError).
Proof.
  unfold Auth.optionalAuth, Auth.authenticateToken, Auth.findById.
  destruct (Auth.token_of h) as [tok|]; [|repeat split; discriminate].
  destruct (verify tok) as [uid em g| | |] eqn:Hv;
    try (repeat split; discriminate).
  - destruct (findOne _ us) as [usr|] eqn:Hu; [|repeat split; discriminate].
    split; [reflexivity|]. split; [|discriminate].
    intros x [= <-]. unfold findOne in Hu. apply find_some in Hu as [Hin Hid].
    apply Nat.eqb_eq in Hid. exists tok, uid, em, g, usr. auto.
  - split; [reflexivity|]. split; [discriminate|]. intros e m _. eauto.
Qed.

(** A guest token for an existing user passes both middlewares with the
    same identity. *)
Lemma middlewares_agree_witness :
  let verify := fun t : string =>
    if String.eqb t "good" then Auth.Decoded 7 "g@temp.local" (Some true)
    else Auth.JsonWebTokenError in
  let us := [mkUser 7 default_stats] in
  Auth.authenticateToken verify (Some "Bearer good") us
  = Auth.Next (Some (Auth.mkReqUser 7 "g@temp.local" true))
  /\ exists tok uid em g usr,
      Auth.token_of (Some "Bearer good") = Some tok
      /\ verify tok = Auth.Decoded uid em g
      /\ In usr us /\ user_id usr = uid.
Proof.
  intros verify us. split; [reflexivity|].
  destruct (proj1 (proj2 (middlewares_agree verify (Some "Bearer good") us))
              (Some (Auth.mkReqUser 7 "g@temp.local" true)) eq_refl)
    as (tok & uid & em & g & usr & H1 & H2 & H3 & H4 & _).
  exists tok, uid, em, g, usr. auto.
Defined.

Lemma delete_account_sessions (u : nat) (db : Db) :
  sessions (snd (Account.delete_account u db))
  = filter (fun s => negb (Nat.eqb (userId s) u)) (sessions db).
Proof.
  unfold Account.delete_account.
  destruct (Account.findOneAndDelete _ (users db)) as [[x|] l]; reflexivity.
Qed.

Lemma delete_account_user_gone (u : nat) (db : Db) :
  NoDup (map user_id (users db)) ->
  Auth.findById u (users (snd (Account.delete_account u db))) = None.
Proof.
  intros Hnd. unfold Auth.findById, Account.delete_account.
  pose proof (findOneAndDelete_spec (fun x => Nat.eqb (user_id x) u) (users db))
    as Hdel.
  destruct (findOne _ (users db)) as [x|] eqn:Hx.
  - destruct Hdel as (l1 & l2 & Hl & _ & H2 & ->). cbn [snd users].
    apply Nat.eqb_eq in H2. rewrite Hl, map_app in Hnd. cbn [map] in Hnd.
    apply NoDup_remove_2 in Hnd. rewrite <- map_app in Hnd.
    apply findOne_all_false. intros y Hy. apply Nat.eqb_neq. intros E.
    apply Hnd. rewrite H2, <- E. apply in_map. exact Hy.
  - rewrite Hdel. cbn [snd users]. exact Hx.
Qed.

(** A deleted account cannot be used any more.  Once DELETE
    /user/account has been handled for a user, with distinct user ids in
    the store, a token that still verifies for that user is refused by
    [authenticateToken] with 401 'Invalid token', [optionalAuth] treats
    the request as anonymous, and the timer has no session for the
    user. *)
Theorem deleted_account_locked_out (verify : string -> Auth.jwt_result)
    (h : option string) (tok em : string) (g : option bool) (u : nat) (db : Db) :
  NoDup (map user_id (users db)) ->
  Auth.token_of h = Some tok -> verify tok = Auth.Decoded u em g ->
  let db' := snd (Account.delete_account u db) in
  Auth.authenticateToken verify h (users db')
  = Auth.Reject 401 "Invalid token" "User account no longer exists"
  /\ Auth.optionalAuth verify h (users db') = Auth.Next None
  /\ (forall now, current u now db' = CurrentNone)
  /\ (forall p, fst (pause u p db') = NoActiveSession).
Proof.
  intros Hnd Ht Hv db'.
  assert (Hgone : Auth.findById u (users db') = None)
    by (apply delete_account_user_gone; exact Hnd).
  assert (Hidle : findOne (active_filter u) (sessions db') = None).
  { apply findOne_all_false. intros s Hs. subst db'.
    rewrite delete_account_sessions in Hs. apply filter_In in Hs as [_ Hs].
    unfold active_filter. destruct (Nat.eqb (userId s) u); [discriminate|].
    reflexivity. }
  unfold Auth.authenticateToken, Auth.optionalAuth. rewrite Ht, Hv, Hgone.
  repeat split.
  - intros now. unfold current. rewrite Hidle. reflexivity.
  - intros p. unfold pause. rewrite (findOneAndUpdate_none _ _ _ Hidle). reflexivity.
Qed.

Lemma deleted_account_locked_out_witness :
  let verify := fun t : string =>
    if String.eqb t "good" then Auth.Decoded 7 "a@b.c" None
    else Auth.JsonWebTokenError in
  let db := run (empty_store [mkUser 7 default_stats; mkUser 8 default_stats])
              [mkEvent 7 0 (ReqStart (mkStart None (Some 600) None None))] in
  Auth.authenticateToken verify (Some "Bearer good") (users db)
  = Auth.Next (Some (Auth.mkReqUser 7 "a@b.c" false))
  /\ Auth.authenticateToken verify (Some "Bearer good")
       (users (snd (Account.delete_account 7 db)))
     = Auth.Reject 401 "Invalid token" "User account no longer exists"
  /\ current 7 1000 (snd (Account.delete_account 7 db)) = CurrentNone.
Proof.
  intros verify db.
  destruct (deleted_account_locked_out verify (Some "Bearer good") "good" "a@b.c"
              None 7 db
              ltac:(repeat constructor; cbn; intuition discriminate)
              eq_refl eq_refl) as (H1 & _ & H3 & _).
  split; [reflexivity|]. split; [exact H1|apply H3].
Defined.

(* ================================================================== *)
(** ** Further properties of the weather cache *)

(** What one request does to the store: nothing, one provider call, or
    one provider call and one new entry for coordinates that had no
    unexpired entry. *)
Lemma weather_step_shape (key : option string) (r : weather_request)
    (st : Weather.state) :
  let st' := snd (weather_step key r st) in
  st' = st
  \/ (exists la lo, Weather.cache st' = Weather.cache st
                    /\ Weather.upstream st' = Weather.upstream st ++ [(la, lo)])
  \/ (exists la lo e,
        Weather.cache st' = Weather.cache st ++ [e]
        /\ Weather.upstream st' = Weather.upstream st ++ [(la, lo)]
        /\ findOne (Weather.cacheKey la lo (wr_now r)) (Weather.cache st) = None
        /\ Weather.lat (Weather.location e) = la
        /\ Weather.lon (Weather.location e) = lo
        /\ Weather.cachedAt e = Weather.at_cachedAt (wr_now' r)
        /\ Weather.expiresAt e = Weather.at_expiresAt (wr_now' r) + Weather.ttl
        /\ Weather.city (Weather.location e) <> ""
        /\ Weather.source e = "openweather").
Proof.
  unfold weather_step, Weather.get_current.
  destruct (wr_lat r) as [la|]; [|left; reflexivity].
  destruct (wr_lon r) as [lo|]; [|left; reflexivity].
  destruct (findOne _ (Weather.cache st)) as [e|] eqn:Hf; [left; reflexivity|].
  destruct (Weather.configured key); [|left; reflexivity]. cbn [negb].
  destruct (wr_fetcher r la lo) as [d|e].
  - destruct (Weather.weather d) as [|c rest].
    + right; left. exists la, lo. split; reflexivity.
    + destruct (Weather.validate _) eqn:Hv.
      * right; right. eexists la, lo, _. cbn.
        repeat split; try reflexivity; try assumption.
        unfold Weather.validate in Hv. cbn in Hv.
        apply negb_true_iff, String.eqb_neq in Hv. exact Hv.
      * right; left. exists la, lo. split; reflexivity.
  - right; left. exists la, lo. split; reflexivity.
Qed.

(** Every entry the handler writes is well formed.  The handler reads the
    clock once for [cachedAt] and once more for [expiresAt]; when the
    second reading of every request is not before the first, then in a
    store that held only well-formed entries, after any sequence of
    requests every entry names a city, comes from 'openweather' and
    expires at least ten minutes after it was cached. *)
Theorem cache_entries_wf (key : option string) (rs : list weather_request)
    (st : Weather.state) :
  Forall (fun r => Weather.at_cachedAt (wr_now' r)
                   <= Weather.at_expiresAt (wr_now' r)) rs ->
  Forall entry_wf (Weather.cache st) ->
  Forall entry_wf (Weather.cache (weather_run key st rs))
  /\ Forall (fun e => Weather.cachedAt e + 600000 <= Weather.expiresAt e
                      /\ Weather.city (Weather.location e) <> ""
                      /\ Weather.source e = "openweather")
            (Weather.cache (weather_run key st rs)).
Proof.
  intros Hrs H.
  assert (Hwf : Forall entry_wf (Weather.cache (weather_run key st rs))).
  { revert st H. induction Hrs as [|r rest Hr _ IH]; intros st H; [exact H|].
    simpl. apply IH.
    destruct (weather_step_shape key r st)
      as [->|[(la & lo & -> & _)
             |(la & lo & e & -> & _ & _ & _ & _ & Hc & Hx & Hcity & Hsrc)]];
      try assumption.
    apply Forall_app. split; [assumption|]. constructor; [|constructor].
    unfold entry_wf. rewrite Hc, Hx. repeat split; try assumption. lia. }
  split; [exact Hwf|].
  eapply Forall_impl; [|exact Hwf]. intros e He. exact He.
Qed.

(** Three requests; the second fails, the third refreshes the expired
    entry of the first.  The save of the third reads the clock at 700200
    for [cachedAt] and at 700201 for [expiresAt]. *)
Lemma cache_entries_wf_witness :
  let rs := [mkWeatherRequest provider_up 0 (Weather.mkSaveClock 150 150 150)
               (Some (40712 # 1000)%Q) (Some (-74006 # 1000)%Q);
             mkWeatherRequest provider_down 1000 (same_ms 1100)
               (Some (51507 # 1000)%Q) (Some (-128 # 1000)%Q);
             mkWeatherRequest provider_up 700000
               (Weather.mkSaveClock 700199 700200 700201)
               (Some (40712 # 1000)%Q) (Some (-74006 # 1000)%Q)] in
  let st := weather_run (Some "k") (Weather.mkState [] []) rs in
  map (fun e => (Weather.cachedAt e, Weather.expiresAt e)) (Weather.cache st)
  = [(150, 600150); (700200, 1300201)]
  /\ Forall (fun e => Weather.cachedAt e + 600000 <= Weather.expiresAt e
                      /\ Weather.city (Weather.location e) <> ""
                      /\ Weather.source e = "openweather")
            (Weather.cache st).
Proof.
  intros rs st. split; [reflexivity|].
  refine (proj2 (cache_entries_wf (Some "k") rs (Weather.mkState [] []) _
                   (Forall_nil _))).
  repeat constructor; cbn; lia.
Defined.

Lemma cacheKey_later (la lo : Q) (t t' : Z) (e : Weather.WeatherCache) :
  t <= t' -> Weather.cacheKey la lo t' e = true ->
  Weather.cacheKey la lo t e = true.
Proof.
  intros Ht H. apply cacheKey_true in H as (H1 & H2 & H3).
  apply cacheKey_true. repeat split; try assumption. lia.
Qed.

Lemma step_one_live (key : option string) (r : weather_request)
    (st : Weather.state) (t : Z) :
  t <= wr_now r -> wr_now r <= Weather.at_expiresAt (wr_now' r) ->
  (forall la lo,
      (List.length (filter (Weather.cacheKey la lo t) (Weather.cache st)) <= 1)%nat) ->
  forall la lo,
    (List.length (filter (Weather.cacheKey la lo (Weather.at_expiresAt (wr_now' r)))
                         (Weather.cache (snd (weather_step key r st)))) <= 1)%nat.
Proof.
  intros Ht Hn Hinv la lo.
  set (T := Weather.at_expiresAt (wr_now' r)) in *.
  assert (Hmono : (List.length (filter (Weather.cacheKey la lo T)
                                       (Weather.cache st)) <= 1)%nat).
  { eapply Nat.le_trans; [|apply (Hinv la lo)].
    apply filter_length_le. intros x. apply cacheKey_later. lia. }
  destruct (weather_step_shape key r st)
    as [->|[(la0 & lo0 & -> & _)
           |(la0 & lo0 & e & -> & _ & Hmiss & Hla & Hlo & _)]];
    try exact Hmono.
  rewrite filter_app_single, length_app.
  destruct (Weather.cacheKey la lo T e) eqn:He; [|simpl; lia].
  apply cacheKey_true in He as (E1 & E2 & _). rewrite Hla in E1. rewrite Hlo in E2.
  assert (Hnone : filter (Weather.cacheKey la lo T) (Weather.cache st) = []).
  { apply findOne_none_filter, findOne_all_false. intros x Hx.
    destruct (Weather.cacheKey la lo T x) eqn:Ex; [|reflexivity].
    apply cacheKey_true in Ex as (X1 & X2 & X3).
    assert (Hhit : Weather.cacheKey la0 lo0 (wr_now r) x = true).
    { apply cacheKey_true. repeat split.
      - rewrite X1. symmetry. exact E1.
      - rewrite X2. symmetry. exact E2.
      - lia. }
    unfold findOne in Hmiss. rewrite (find_none _ _ Hmiss x Hx) in Hhit.
    discriminate. }
  rewrite Hnone. simpl. lia.
Qed.

(** One live entry per place.  When requests are handled one after the
    other with a clock that does not go back, then at the end, for every
    pair of coordinates, at most one entry of the store is unexpired:
    stale entries pile up in the collection, live ones do not. *)
Theorem one_live_entry (key : option string) (rs : list weather_request)
    (t : Z) (st : Weather.state) :
  chronological t rs ->
  (forall la lo,
      (List.length (filter (Weather.cacheKey la lo t) (Weather.cache st)) <= 1)%nat) ->
  forall la lo,
    (List.length (filter (Weather.cacheKey la lo (final_clock t rs))
                         (Weather.cache (weather_run key st rs))) <= 1)%nat.
Proof.
  revert t st. induction rs as [|r rest IH]; intros t st Hc Hinv; [exact Hinv|].
  destruct Hc as (H1 & H2 & H3). simpl. apply IH; [exact H3|].
  apply step_one_live with (t := t); [assumption| |assumption].
  unfold readings_in_order in H2. lia.
Qed.

(** A fetch, a hit, a refresh after expiry and another hit: two entries
    for the place in the collection, one of them live. *)
Lemma one_live_entry_witness :
  let la := (40712 # 1000)%Q in
  let lo := (-74006 # 1000)%Q in
  let rs := [mkWeatherRequest provider_up 0 (same_ms 150) (Some la) (Some lo);
             mkWeatherRequest provider_up 1000 (same_ms 1100) (Some la) (Some lo);
             mkWeatherRequest provider_up 700000
               (Weather.mkSaveClock 700200 700201 700202) (Some la) (Some lo);
             mkWeatherRequest provider_up 800000 (same_ms 800300)
               (Some la) (Some lo)] in
  let st := weather_run (Some "k") (Weather.mkState [] []) rs in
  List.length (Weather.cache st) = 2%nat
  /\ (List.length (filter (Weather.cacheKey la lo 800300) (Weather.cache st)) <= 1)%nat.
Proof.
  intros la lo rs st. split; [reflexivity|].
  apply (one_live_entry (Some "k") rs 0 (Weather.mkState [] [])).
  - unfold chronological, readings_in_order. cbn. lia.
  - intros la' lo'. cbn. lia.
Defined.

Lemma step_accounting (key : option string) (r : weather_request)
    (st : Weather.state) :
  exists added calls,
    Weather.cache (snd (weather_step key r st)) = Weather.cache st ++ added
    /\ Weather.upstream (snd (weather_step key r st)) = Weather.upstream st ++ calls
    /\ (List.length added <= List.length calls <= 1)%nat.
Proof.
  destruct (weather_step_shape key r st)
    as [->|[(la & lo & -> & ->)|(la & lo & e & -> & -> & _)]].
  - exists [], []. rewrite !app_nil_r. simpl. auto.
  - exists [], [(la, lo)]. rewrite app_nil_r. simpl. auto.
  - exists [e], [(la, lo)]. simpl. auto.
Qed.

(** The cache only grows, and only after a provider call.  Over any
    sequence of requests the entries that were in the store stay where
    they are, unchanged; the provider is called at most once per request;
    and no more entries are added than calls were made. *)
Theorem weather_accounting (key : option string) (rs : list weather_request)
    (st : Weather.state) :
  exists added calls,
    Weather.cache (weather_run key st rs) = Weather.cache st ++ added
    /\ Weather.upstream (weather_run key st rs) = Weather.upstream st ++ calls
    /\ (List.length added <= List.length calls <= List.length rs)%nat.
Proof.
  revert st. induction rs as [|r rest IH]; intros st.
  - exists [], []. rewrite !app_nil_r. simpl. auto.
  - destruct (step_accounting key r st) as (a1 & c1 & Ha & Hc & Hl).
    destruct (IH (snd (weather_step key r st))) as (a2 & c2 & Ha2 & Hc2 & Hl2).
    exists (a1 ++ a2), (c1 ++ c2). simpl.
    rewrite Ha2, Hc2, Ha, Hc, <- !app_assoc, !length_app.
    repeat split; lia.
Qed.

Lemma findOne_filter_keep {A : Type} (p q : A -> bool) (l : list A) :
  (forall x, p x = true -> q x = true) ->
  findOne p (filter q l) = findOne p l.
Proof.
  unfold findOne. intros H. induction l as [|x r IH]; simpl; [reflexivity|].
  destruct (q x) eqn:Hq; simpl.
  - destruct (p x); [reflexivity|exact IH].
  - destruct (p x) eqn:Hp; [|exact IH].
    rewrite (H x Hp) in Hq. discriminate.
Qed.

(** The TTL index cannot be observed.  Whichever expired entries the
    database has deleted by the clock reading [t], a request at a clock
    reading not before [t] gets the reply it would have got had nothing
    been deleted, and calls the provider in the same cases. *)
Theorem ttl_delete_unobservable (key : option string)
    (fetcher : Q -> Q -> Weather.axios_result) (now : Z)
    (now' : Weather.save_clock) (t : Z)
    (plat plon : option Q) (victim : Weather.WeatherCache -> bool)
    (st : Weather.state) :
  t <= now ->
  let swept := Weather.mkState (ttl_delete victim t (Weather.cache st))
                               (Weather.upstream st) in
  fst (Weather.get_current key fetcher now now' plat plon swept)
  = fst (Weather.get_current key fetcher now now' plat plon st)
  /\ Weather.upstream (snd (Weather.get_current key fetcher now now' plat plon swept))
     = Weather.upstream (snd (Weather.get_current key fetcher now now' plat plon st)).
Proof.
  intros Ht swept. unfold Weather.get_current.
  destruct plat as [la|]; [|split; reflexivity].
  destruct plon as [lo|]; [|split; reflexivity].
  subst swept. cbn [Weather.cache Weather.upstream]. unfold ttl_delete.
  rewrite findOne_filter_keep.
  - destruct (findOne _ (Weather.cache st)); [split; reflexivity|].
    destruct (Weather.configured key); [|split; reflexivity]. cbn [negb].
    destruct (fetcher la lo) as [d|e]; [|split; reflexivity].
    destruct (Weather.weather d); [split; reflexivity|].
    destruct (Weather.validate _); split; reflexivity.
  - intros x Hx. apply cacheKey_true in Hx as (_ & _ & Hx).
    apply negb_true_iff, andb_false_iff. right. apply Z.leb_gt. lia.
Qed.

(** An entry expired at 600150 is deleted by the database; the request at
    700000 is answered as if it were still there: by a fresh fetch. *)
Lemma ttl_delete_unobservable_witness :
  let la := (40712 # 1000)%Q in
  let lo := (-74006 # 1000)%Q in
  let st := weather_run (Some "k") (Weather.mkState [] [])
              [mkWeatherRequest provider_up 0 (same_ms 150) (Some la) (Some lo)] in
  let swept := Weather.mkState (ttl_delete (fun _ => true) 650000 (Weather.cache st))
                               (Weather.upstream st) in
  Weather.cache swept = []
  /\ fst (Weather.get_current (Some "k") provider_up 700000 (same_ms 700200)
            (Some la) (Some lo) swept)
     = fst (Weather.get_current (Some "k") provider_up 700000 (same_ms 700200)
              (Some la) (Some lo) st).
Proof.
  intros la lo st swept. split; [reflexivity|].
  exact (proj1 (ttl_delete_unobservable (Some "k") provider_up 700000
                  (same_ms 700200) 650000 (Some la) (Some lo) (fun _ => true)
                  st ltac:(lia))).
Defined.

(** A reply marked as cached is never stale.  It leaves the store as it
    was, and its weather and location are those of an entry of the store
    that has the requested coordinates and expires after the clock
    reading of the request.  A reply that is not marked as cached has
    cost exactly one provider call. *)
Theorem cached_reply_fresh (key : option string)
    (fetcher : Q -> Q -> Weather.axios_result) (now : Z)
    (now' : Weather.save_clock)
    (plat plon : option Q) (st st' : Weather.state)
    (w : Weather.current_weather) (cached : bool) (loc : Weather.location_t) :
  Weather.get_current key fetcher now now' plat plon st
  = (Weather.Ok w cached loc, st') ->
  exists la lo,
    plat = Some la /\ plon = Some lo
    /\ (cached = true ->
        st' = st
        /\ exists e, In e (Weather.cache st)
                     /\ Weather.current e = w /\ Weather.location e = loc
                     /\ (Weather.lat loc == la)%Q /\ (Weather.lon loc == lo)%Q
                     /\ now < Weather.expiresAt e)
    /\ (cached = false ->
        Weather.upstream st' = Weather.upstream st ++ [(la, lo)]
        /\ Weather.timestamp w = Weather.at_timestamp now'
        /\ Weather.lat loc = la /\ Weather.lon loc = lo).
Proof.
  unfold Weather.get_current.
  destruct plat as [la|]; [|discriminate].
  destruct plon as [lo|]; [|discriminate].
  intros H. exists la, lo. split; [reflexivity|]. split; [reflexivity|].
  destruct (findOne _ (Weather.cache st)) as [e|] eqn:Hf.
  - injection H as <- <- <- <-. split; [|discriminate]. intros _.
    split; [reflexivity|]. unfold findOne in Hf.
    apply find_some in Hf as [Hin Hk]. apply cacheKey_true in Hk as (K1 & K2 & K3).
    exists e. auto 10.
  - destruct (Weather.configured key); [|discriminate]. cbn [negb] in H.
    destruct (fetcher la lo) as [d|e].
    + destruct (Weather.weather d) as [|c rest];
        [destruct (on_error_cases (Weather.mkError None None))
           as [(_ & E)|[(_ & _ & E)|(_ & _ & E)]]; rewrite E in H; discriminate|].
      destruct (Weather.validate _);
        [|destruct (on_error_cases (Weather.mkError None None))
            as [(_ & E)|[(_ & _ & E)|(_ & _ & E)]]; rewrite E in H; discriminate].
      injection H as <- <- <- <-. split; [discriminate|]. intros _.
      repeat split.
    + destruct (on_error_cases e) as [(_ & E)|[(_ & _ & E)|(_ & _ & E)]];
        rewrite E in H; discriminate.
Qed.

Lemma cached_reply_fresh_witness :
  let la := (40712 # 1000)%Q in
  let lo := (-74006 # 1000)%Q in
  let st := weather_run (Some "k") (Weather.mkState [] [])
              [mkWeatherRequest provider_up 0 (same_ms 150) (Some la) (Some lo)] in
  exists e, In e (Weather.cache st)
            /\ Weather.current e = Weather.process sample_payload clear_sky 150
            /\ 300000 < Weather.expiresAt e.
Proof.
  intros la lo st.
  destruct (cached_reply_fresh None provider_down 300000 (same_ms 300100)
              (Some la) (Some lo) st st
              (Weather.process sample_payload clear_sky 150) true
              (Weather.mkLocation "New York" "US" la lo) eq_refl)
    as (la' & lo' & _ & _ & H & _).
  destruct (H eq_refl) as (_ & e & H1 & H2 & _ & _ & _ & H6).
  exists e. auto.
Defined.

(* ================================================================== *)
(** ** Failed requests *)

(** A request of the timer engine that is answered with an error leaves
    the store exactly as it was: sessions, users and the next id. *)
Theorem failure_changes_nothing (e : event) (db : Db) (status : Z)
    (err : string) :
  fst (handle e db) = Failure status err -> snd (handle e db) = db.
Proof.
  destruct e as [u now r]. unfold handle. simpl.
  destruct r as [b|p|pr n|rs].
  - unfold start. destruct (invalid_duration _); [reflexivity|].
    destruct (sb_duration b); [|reflexivity].
    destruct (findOne _ _); [reflexivity|discriminate].
  - unfold pause. destruct (findOneAndUpdate _ _ _) as [[s|] l];
      [discriminate|reflexivity].
  - unfold complete. destruct (findOneAndUpdate _ _ _) as [[s|] l];
      [discriminate|reflexivity].
  - unfold stop. destruct (findOneAndUpdate _ _ _) as [[s|] l];
      [discriminate|reflexivity].
Qed.

(** A second start while a session runs, and a pause by a user without
    session, change nothing. *)
Lemma failure_changes_nothing_witness :
  let db := run (empty_store [mkUser 7 default_stats])
              [mkEvent 7 0 (ReqStart (mkStart None (Some 600) None None))] in
  snd (handle (mkEvent 7 1000 (ReqStart (mkStart None (Some 900) None None))) db) = db
  /\ snd (handle (mkEvent 8 1000 (ReqPause (Some 30))) db) = db.
Proof.
  intros db. split.
  - exact (failure_changes_nothing
             (mkEvent 7 1000 (ReqStart (mkStart None (Some 900) None None)))
             db 409 "Session already active" eq_refl).
  - exact (failure_changes_nothing (mkEvent 8 1000 (ReqPause (Some 30)))
             db 404 "No active session" eq_refl).
Defined.

(** A weather request that is answered with an error never writes the
    cache, whatever the error: invalid coordinates, no API key, a
    provider failure, or an answer of the provider that cannot be
    processed or stored. *)
Theorem weather_failure_no_write (key : option string)
    (fetcher : Q -> Q -> Weather.axios_result) (now : Z)
    (now' : Weather.save_clock)
    (plat plon : option Q) (st : Weather.state) (status : Z)
    (err msg : string) :
  fst (Weather.get_current key fetcher now now' plat plon st)
  = Weather.Failure status err msg ->
  Weather.cache (snd (Weather.get_current key fetcher now now' plat plon st))
  = Weather.cache st.
Proof.
  unfold Weather.get_current.
  destruct plat as [la|]; [|reflexivity].
  destruct plon as [lo|]; [|reflexivity].
  destruct (findOne _ (Weather.cache st)); [discriminate|].
  destruct (Weather.configured key); [|reflexivity]. cbn [negb].
  destruct (fetcher la lo) as [d|e]; [|reflexivity].
  destruct (Weather.weather d); [reflexivity|].
  destruct (Weather.validate _); [discriminate|reflexivity].
Qed.

(** The provider answers without a city name (a place at sea): the reply
    is a 500 and nothing is cached. *)
Lemma weather_failure_no_write_witness :
  let at_sea := fun _ _ : Q =>
    Weather.Resolved
      (Weather.mkData "" "" (180 # 10)%Q (175 # 10)%Q 80%Q 1010%Q
                      None None None [clear_sky]) in
  let st := Weather.mkState [] [] in
  fst (Weather.get_current (Some "k") at_sea 0 (same_ms 150)
         (Some 0%Q) (Some (-30)%Q) st)
  = Weather.ProviderError
  /\ Weather.cache
       (snd (Weather.get_current (Some "k") at_sea 0 (same_ms 150)
               (Some 0%Q) (Some (-30)%Q) st))
     = [].
Proof.
  intros at_sea st. split; [reflexivity|].
  exact (weather_failure_no_write (Some "k") at_sea 0 (same_ms 150) (Some 0%Q)
           (Some (-30)%Q) st 500 "Weather fetch failed"
           "Unable to fetch weather data" eq_refl).
Defined.
